(** * Wholesale Shop Management: the order wizard and its persistence calls

    A shallow embedding of [src/app.py]: the permission check
    ([check_permissions]), the database wrapper ([execute_query]) and the
    order wizard ([page_order_wizard]): its step-2 product query, the
    "Add to Cart" handler and the step-5 "Create Complete Order" handler.

    Conventions.
    - A row that comes back from the database is a Python [dict] with string
      keys; it is a [gmap string value].
    - The dictionaries the wizard itself builds with a fixed set of keys
      (cart items, [order_info], [payment_info], [transport_info]) are
      records or small inductive types, one constructor per shape the source
      assigns.
    - Python [int] is [Z]; Python [float] is the kernel's binary64 [float].
    - [st.session_state], the Supabase tables, the backend's failures and
      what the page prints are threaded through a state-and-exception monad
      [M]; Python exceptions are the [Raise] results of that monad.
    - A widget is an input of the run: [st.button] is the boolean it returns
      in that run, a form's fields are the arguments of its handler. *)

From Stdlib Require Import ZArith Floats Uint63 Lia.
From stdpp Require Import gmap strings list.

Open Scope Z_scope.

(** ** Values and rows *)

(** JSON values as the Supabase client hands them to Python. *)
Inductive value :=
| VNone
| VBool (b : bool)
| VInt (z : Z)
| VFloat (f : float)
| VStr (s : string).

Abbreviation row := (gmap string value).

(** ** The backing store

    Supabase is not part of the repository. It is modelled as a set of named
    tables; each table knows its primary-key column and hands out the next
    identifier on insert. Filters are PostgREST's: [eq] keeps a row when the
    column holds an equal value, [neq] when it holds a different, non-null
    one; several filters are a conjunction. *)

Record table := Table {
  pk_col : string;
  next_id : Z;
  rows : list row;
}.

Abbreviation store := (gmap string table).

Definition value_eqb (a b : value) : bool :=
  match a, b with
  | VBool x, VBool y => Bool.eqb x y
  | VInt x, VInt y => Z.eqb x y
  | VFloat x, VFloat y => PrimFloat.eqb x y
  | VStr x, VStr y => String.eqb x y
  | _, _ => false
  end.

Definition value_neqb (a b : value) : bool :=
  match a, b with
  | VNone, _ | _, VNone => false
  | _, _ => negb (value_eqb a b)
  end.

Definition col_eq (r : row) (f : string * value) : bool :=
  match r !! f.1 with
  | Some x => value_eqb x f.2
  | None => false
  end.

Definition col_neq (r : row) (f : string * value) : bool :=
  match r !! f.1 with
  | Some x => value_neqb x f.2
  | None => false
  end.

Definition matches (eqs neqs : list (string * value)) (r : row) : bool :=
  forallb (col_eq r) eqs && forallb (col_neq r) neqs.

Inductive request :=
| ReqSelect (tbl : string) (eqs neqs : list (string * value))
| ReqInsert (tbl : string) (data : row)
| ReqUpdate (tbl : string) (data : row) (eqs : list (string * value)).

(** Python exceptions that the modelled code can meet. *)
Inductive exn :=
| APIError
| AttributeError (attr : string)
| KeyError (key : string)
| IndexError
| TypeError.

Inductive result (A : Type) :=
| Ok (a : A)
| Raise (e : exn).
Arguments Ok {A} a.
Arguments Raise {A} e.

(** [update] overwrites the columns of [data] in every matching row. *)
Definition update_row (data : row) (eqs : list (string * value)) (r : row) : row :=
  if matches eqs [] r then data ∪ r else r.

Definition backend (rq : request) (s : store) : result (list row) * store :=
  match rq with
  | ReqSelect tbl eqs neqs =>
      match s !! tbl with
      | Some t => (Ok (filter (fun r => matches eqs neqs r = true) (rows t)), s)
      | None => (Raise APIError, s)
      end
  | ReqInsert tbl data =>
      match s !! tbl with
      | Some t =>
          let r := <[pk_col t := VInt (next_id t)]> data in
          (Ok [r], <[tbl := Table (pk_col t) (next_id t + 1) (rows t ++ [r])]> s)
      | None => (Raise APIError, s)
      end
  | ReqUpdate tbl data eqs =>
      match s !! tbl with
      | Some t =>
          (Ok (update_row data eqs <$> filter (fun r => matches eqs [] r = true) (rows t)),
           <[tbl := Table (pk_col t) (next_id t) (update_row data eqs <$> rows t)]> s)
      | None => (Raise APIError, s)
      end
  end.

(** ** Session state *)

Record cart_item := CartItem {
  product_id : Z;
  name : string;
  quantity : Z;
  unit_price : float;
  line_total : float;
}.

(** [st.session_state.order_info]: [{}] or the dictionary stored by step 1.
    Dates are kept as the text [str] gives for them. *)
Inductive order_info_t :=
| OrderInfoEmpty
| OrderInfo (customer_id employee_id : Z)
            (customer_name employee_name order_date status : string).

(** [st.session_state.payment_info]: [{}], [{'make_payment': False}] or the
    dictionary stored by the payment form. *)
Inductive payment_info_t :=
| PaymentEmpty
| PaymentSkipped
| PaymentRecorded (pay_date : string) (pay_amount : float) (pay_mode : string).

(** [st.session_state.transport_info], likewise. *)
Inductive transport_info_t :=
| TransportEmpty
| TransportSkipped
| TransportRecorded (vehicle_number driver_name transport_mode
                     departure_date arrival_date t_status : string).

(** The row of the [users] table kept under [st.session_state.user]. *)
Record user_t := User {
  username : string;
  role : string;
}.

(** A key of [st.session_state] is present ([Some]) or absent ([None]). *)
Record session_state := Session {
  user : option user_t;
  wizard_step : option Z;
  order_info : option order_info_t;
  cart : option (list cart_item);
  payment_info : option payment_info_t;
  transport_info : option transport_info_t;
}.

(** ** What the page shows *)

Inductive ui_event :=
| UiDatabaseError (e : exn)
    (* st.error(f"Database error: {e}") *)
| UiNoProducts
    (* st.error("No products available with stock. Please add products first.") *)
| UiAdded (product_name : string)
    (* st.success(f"Added {product['name']} to cart!") *)
| UiUpdated (product_name : string)
    (* st.success(f"Updated {product['name']} quantity in cart!") *)
| UiOnlyAvailable (max_qty : Z)
    (* st.error(f"Only {max_qty} units available in stock!") *)
| UiOrderCreated (order_id : value)
    (* st.success(f"Order #{order_id} created successfully!") *)
| UiSummary (order_id : value) (items : nat)
            (payment : option float) (transport : option string)
    (* the "Created Records Summary" expander *)
| UiNoOrderId
    (* st.error("Failed to create order: No order ID returned") *)
| UiFailed (e : exn).
    (* st.error(f"Failed to create order: {str(e)}") and the line after it *)

(** ** The monad of one script run *)

(** [faults] is the backend's schedule: the head decides whether the next
    request raises ([true]) or is served; an empty schedule serves all. *)
Record world := World {
  db : store;
  faults : list bool;
  session : session_state;
  ui : list ui_event;
}.

Definition M (A : Type) : Type := world → result A * world.

Definition ret {A} (a : A) : M A := fun w => (Ok a, w).

Definition bind {A B} (m : M A) (k : A → M B) : M B :=
  fun w =>
    match m w with
    | (Ok a, w') => k a w'
    | (Raise e, w') => (Raise e, w')
    end.

Definition raise {A} (e : exn) : M A := fun w => (Raise e, w).

(** [try: body except Exception as e: handler(e)] *)
Definition try_except {A} (body : M A) (handler : exn → M A) : M A :=
  fun w =>
    match body w with
    | (Ok a, w') => (Ok a, w')
    | (Raise e, w') => handler e w'
    end.

Declare Scope run_scope.
Delimit Scope run_scope with run.
Notation "x <- c ;; k" := (bind c (fun x => k))
  (at level 100, c at next level, right associativity) : run_scope.
Notation "c ;; k" := (bind c (fun _ => k))
  (at level 100, right associativity) : run_scope.
Open Scope run_scope.

Definition show (e : ui_event) : M unit :=
  fun w => (Ok tt, World (db w) (faults w) (session w) (ui w ++ [e])).

Definition get_session : M session_state := fun w => (Ok (session w), w).

Definition put_session (s : session_state) : M unit :=
  fun w => (Ok tt, World (db w) (faults w) s (ui w)).

(** [query.execute()]: one round trip to the backend. *)
Definition supabase_execute (rq : request) : M (list row) :=
  fun w =>
    match faults w with
    | true :: fs => (Raise APIError, World (db w) fs (session w) (ui w))
    | fl =>
        let '(r, s) := backend rq (db w) in
        (r, World s (tl fl) (session w) (ui w))
    end.

(** [for x in xs: body(x)] *)
Fixpoint for_each {A} (xs : list A) (body : A → M unit) : M unit :=
  match xs with
  | [] => ret tt
  | x :: xs' => body x ;; for_each xs' body
  end.

(** ** [execute_query]

    The keyword arguments the wizard passes are [eq], [neq] and [data]; the
    other ones ([columns], [like], [limit], [order]) and the [delete]
    operation are used by other pages only and are left out. *)

Inductive operation := OpSelect | OpInsert | OpUpdate.

Record kwargs := Kwargs {
  kw_eq : list (string * value);
  kw_neq : list (string * value);
  kw_data : option row;
}.

(** [kwargs["data"]] *)
Definition kwargs_data (kw : kwargs) : M row :=
  match kw_data kw with
  | Some d => ret d
  | None => raise (KeyError "data")
  end.

Definition execute_query (tbl : string) (op : operation) (kw : kwargs) : M (list row) :=
  try_except
    (match op with
     | OpSelect => supabase_execute (ReqSelect tbl (kw_eq kw) (kw_neq kw))
     | OpInsert => data <- kwargs_data kw ;; supabase_execute (ReqInsert tbl data)
     | OpUpdate => data <- kwargs_data kw ;; supabase_execute (ReqUpdate tbl data (kw_eq kw))
     end)
    (fun e => show (UiDatabaseError e) ;; ret []).

Definition select_where (eqs neqs : list (string * value)) : kwargs := Kwargs eqs neqs None.
Definition with_data (data : row) : kwargs := Kwargs [] [] (Some data).
Definition update_where (data : row) (eqs : list (string * value)) : kwargs :=
  Kwargs eqs [] (Some data).

(** ** [check_permissions] *)

Definition check_permissions (required_role : option string) : M bool :=
  s <- get_session ;;
  match user s with
  | None => ret false
  | Some u =>
      match required_role with
      | None => ret true
      | Some r =>
          if String.eqb r "Manager" && negb (String.eqb (role u) "Manager")
          then ret false
          else ret true
      end
  end.

(** ** The order wizard, step 2: products and the cart *)

(** A Python dict literal whose keys are distinct. *)
Definition dict (items : list (string * value)) : row := list_to_map items.

(** [row[key]] *)
Definition getitem (r : row) (key : string) : M value :=
  match r !! key with
  | Some v => ret v
  | None => raise (KeyError key)
  end.

(** An integer operand of Python's [-] or [>]; [stock_quantity] is an
    integer column, any other kind of value is taken as a [TypeError]. *)
Definition as_int (v : value) : M Z :=
  match v with
  | VInt z => ret z
  | _ => raise TypeError
  end.

(** [products = execute_query("products", eq={"stock_quantity": 0},
                              neq={"stock_quantity": 0})] *)
Definition step2_products : M (list row) :=
  execute_query "products" OpSelect
    (select_where [("stock_quantity", VInt 0)] [("stock_quantity", VInt 0)]).

(** [p for p in products if p['stock_quantity'] > 0], the values of
    [prod_map]. *)
Fixpoint prod_map (products : list row) : M (list row) :=
  match products with
  | [] => ret []
  | p :: ps =>
      v <- getitem p "stock_quantity" ;;
      stock <- as_int v ;;
      rest <- prod_map ps ;;
      ret (if 0 <? stock then p :: rest else rest)
  end.

(** Step 2 up to the product selector: [None] when the page returns after
    "No products available with stock", else the products on offer. *)
Definition step2_build_cart : M (option (list row)) :=
  products <- step2_products ;;
  match products with
  | [] => show UiNoProducts ;; ret None
  | _ =>
      s <- get_session ;;
      (match cart s with
       | None => put_session (Session (user s) (wizard_step s) (order_info s)
                                      (Some []) (payment_info s) (transport_info s))
       | Some _ => ret tt
       end) ;;
      offered <- prod_map products ;;
      ret (Some offered)
  end.

(** The product chosen in the selector, as the handler reads it. *)
Record product := Product {
  p_product_id : Z;
  p_name : string;
  p_unit_price : float;
  p_stock_quantity : Z;
}.

(** Python's [int * float]: the integer is converted first. The conversion
    is the correctly rounded one for [|z| < 2^63]; [st.number_input] keeps
    integers within [2^53 - 1]. *)
Definition float_of_int (z : Z) : float :=
  if 0 <=? z then PrimFloat.of_uint63 (Uint63.of_Z z)
  else PrimFloat.opp (PrimFloat.of_uint63 (Uint63.of_Z (- z))).

Definition int_times_float (z : Z) (f : float) : float :=
  PrimFloat.mul (float_of_int z) f.

Definition same_product (pid : Z) (item : cart_item) : bool :=
  product_id item =? pid.

(** [existing_item['quantity'] += quantity] and the line total after it. *)
Definition add_quantity (qty : Z) (item : cart_item) : cart_item :=
  let q := quantity item + qty in
  CartItem (product_id item) (name item) q (unit_price item)
           (int_times_float q (unit_price item)).

(** The cart with its first item for [pid] (the object [next(...)] returns)
    updated in place. *)
Fixpoint update_existing (pid qty : Z) (c : list cart_item) : list cart_item :=
  match c with
  | [] => []
  | item :: rest =>
      if same_product pid item then add_quantity qty item :: rest
      else item :: update_existing pid qty rest
  end.

(** The "Add to Cart" handler for a selected product: the cart after it and
    the message shown. *)
Definition add_to_cart (p : product) (qty : Z) (price : float)
    (c : list cart_item) : list cart_item * ui_event :=
  let max_qty := p_stock_quantity p in
  if qty <=? max_qty then
    match find (same_product (p_product_id p)) c with
    | Some _ =>
        (update_existing (p_product_id p) qty c, UiUpdated (p_name p))
    | None =>
        (c ++ [CartItem (p_product_id p) (p_name p) qty price
                        (int_times_float qty price)],
         UiAdded (p_name p))
    end
  else (c, UiOnlyAvailable max_qty).

(** ** The order wizard, step 5: "Create Complete Order" *)

(** [st.session_state.key] *)
Definition attr {A} (key : string) (o : option A) : M A :=
  match o with
  | Some a => ret a
  | None => raise (AttributeError key)
  end.

(** [rows[0]] *)
Definition index0 (l : list row) : M row :=
  match l with
  | r :: _ => ret r
  | [] => raise IndexError
  end.

Definition order_data : M row :=
  s <- get_session ;;
  info <- attr "order_info" (order_info s) ;;
  match info with
  | OrderInfoEmpty => raise (KeyError "customer_id")
  | OrderInfo customer employee _ _ date status =>
      ret (dict [("customer_id", VInt customer); ("employee_id", VInt employee);
                 ("order_date", VStr date); ("status", VStr status)])
  end.

(** [# Insert order item] *)
Definition insert_order_item (order_id : value) (item : cart_item) : M unit :=
  let item_data :=
    dict [("order_id", order_id); ("product_id", VInt (product_id item));
          ("quantity", VInt (quantity item)); ("price", VFloat (line_total item))] in
  execute_query "order_items" OpInsert (with_data item_data) ;;
  ret tt.

(** [# Update product stock] *)
Definition update_product_stock (item : cart_item) : M unit :=
  found <- execute_query "products" OpSelect
             (select_where [("product_id", VInt (product_id item))] []) ;;
  current_product <- index0 found ;;
  v <- getitem current_product "stock_quantity" ;;
  stock <- as_int v ;;
  let new_stock := stock - quantity item in
  execute_query "products" OpUpdate
    (update_where (dict [("stock_quantity", VInt new_stock)])
                  [("product_id", VInt (product_id item))]) ;;
  ret tt.

(** [# Step 3: Create Payment (if selected)] *)
Definition create_payment (order_id : value) : M unit :=
  s <- get_session ;;
  p <- attr "payment_info" (payment_info s) ;;
  match p with
  | PaymentRecorded pay_date pay_amount pay_mode =>
      if PrimFloat.ltb 0%float pay_amount then
        execute_query "payments" OpInsert
          (with_data (dict [("order_id", order_id); ("payment_date", VStr pay_date);
                            ("amount", VFloat pay_amount);
                            ("payment_mode", VStr pay_mode)])) ;;
        ret tt
      else ret tt
  | _ => ret tt
  end.

Definition nonempty (s : string) : bool :=
  match s with
  | EmptyString => false
  | _ => true
  end.

(** [# Step 4: Create Transportation (if selected)] *)
Definition create_transportation (order_id : value) : M unit :=
  s <- get_session ;;
  t <- attr "transport_info" (transport_info s) ;;
  match t with
  | TransportRecorded vehicle driver mode departure arrival t_status =>
      if nonempty vehicle && nonempty driver then
        execute_query "transportation" OpInsert
          (with_data (dict [("order_id", order_id); ("vehicle_number", VStr vehicle);
                            ("driver_name", VStr driver); ("transport_mode", VStr mode);
                            ("departure_date", VStr departure);
                            ("arrival_date", VStr arrival); ("status", VStr t_status)])) ;;
        ret tt
      else ret tt
  | _ => ret tt
  end.

(** The success message and the "Created Records Summary" expander. *)
Definition show_created (order_id : value) : M unit :=
  show (UiOrderCreated order_id) ;;
  s <- get_session ;;
  c <- attr "cart" (cart s) ;;
  p <- attr "payment_info" (payment_info s) ;;
  t <- attr "transport_info" (transport_info s) ;;
  show (UiSummary order_id (length c)
          (match p with PaymentRecorded _ a _ => Some a | _ => None end)
          (match t with TransportRecorded _ _ m _ _ _ => Some m | _ => None end)).

(** [for key in ['wizard_step', 'order_info', 'cart', 'payment_info',
    'transport_info']: if key in st.session_state: del st.session_state[key]] *)
Definition clear_wizard (s : session_state) : session_state :=
  Session (user s) None None None None None.

(** [# Step 2: Create Order Items and Update Stock] *)
Definition create_items_and_update_stock (order_id : value) : M unit :=
  s <- get_session ;;
  c <- attr "cart" (cart s) ;;
  for_each c (fun item =>
    insert_order_item order_id item ;;
    update_product_stock item).

(** What follows a non-empty [order_result], up to the summary. *)
Definition write_order (first : row) : M unit :=
  order_id <- getitem first "order_id" ;;
  create_items_and_update_stock order_id ;;
  create_payment order_id ;;
  create_transportation order_id ;;
  show_created order_id.

(** The body of [if st.button("Create Complete Order")]. [create_another]
    is what the nested [st.button("Create Another Order")] returns in this
    run; [st.rerun()] after the deletion ends the run. The read cache that
    [st.cache_data.clear()] empties serves the customer and employee lists
    of step 1 only and is not part of the model. *)
Definition create_complete_order (create_another : bool) : M unit :=
  try_except
    (data <- order_data ;;
     order_result <- execute_query "orders" OpInsert (with_data data) ;;
     match order_result with
     | [] => show UiNoOrderId
     | first :: _ =>
         write_order first ;;
         if create_another then
           s <- get_session ;;
           put_session (clear_wizard s)
         else ret tt
     end)
    (fun e => show (UiFailed e)).

(** ** Running a computation *)

Definition outcome {A} (m : M A) (w : world) : result A := (m w).1.
Definition after {A} (m : M A) (w : world) : world := (m w).2.

(** The rows of a table of the store; an absent table has none. *)
Definition table_rows (s : store) (tbl : string) : list row :=
  match s !! tbl with
  | Some t => rows t
  | None => []
  end.


(** ** A small shop

    One customer, one employee and one product [P1] priced 50, with the
    tables of the schema and nothing ordered yet. *)

Definition product_row (pid : Z) (nm : string) (price : float) (stock : Z) : row :=
  dict [("product_id", VInt pid); ("name", VStr nm);
        ("unit_price", VFloat price); ("stock_quantity", VInt stock)].

Definition shop (stock : Z) : store :=
  list_to_map
    [("customers", Table "customer_id" 2
        [dict [("customer_id", VInt 1); ("name", VStr "C1")]]);
     ("employees", Table "employee_id" 2
        [dict [("employee_id", VInt 1); ("name", VStr "E1")]]);
     ("products", Table "product_id" 2 [product_row 1 "P1" 50 stock]);
     ("orders", Table "order_id" 1 []);
     ("order_items", Table "order_item_id" 1 []);
     ("payments", Table "payment_id" 1 []);
     ("transportation", Table "transport_id" 1 [])].

Definition P1 (stock : Z) : product := Product 1 "P1" 50 stock.

Definition staff : user_t := User "staff" "Staff".

(** The session at step 5 with [c] in the cart, payment and transportation
    skipped. *)
Definition at_step5 (status : string) (c : list cart_item) : session_state :=
  Session (Some staff) (Some 5)
          (Some (OrderInfo 1 1 "C1 (ID 1)" "E1 (ID 1)" "2025-01-15" status))
          (Some c) (Some PaymentSkipped) (Some TransportSkipped).

(** The session of the scenario, with one run of "Add to Cart" (3 of P1 at
    50) behind it, and the world in which the order is then created;
    [schedule] is the backend's fault schedule. *)
Definition scenario (stock : Z) (schedule : list bool) (status : string) : world :=
  World (shop stock) schedule
        (at_step5 status (add_to_cart (P1 stock) 3 50 []).1) [].

(** ** Artifacts of an order

    What the store holds of one commit, measured against the store before
    it: nothing, or the order row, one item row per cart line and every
    product's stock less the quantity the cart asks of it. *)

(** The quantity a cart asks of product [pid]. *)
Fixpoint demand (c : list cart_item) (pid : Z) : Z :=
  match c with
  | [] => 0
  | item :: rest =>
      (if same_product pid item then quantity item else 0) + demand rest pid
  end.




(** ** Stock

    A product row's stock and the invariant that no stock is negative. *)

Definition stock_of (r : row) : option Z :=
  match r !! "stock_quantity" with
  | Some (VInt z) => Some z
  | _ => None
  end.

Definition stock_nonneg (s : store) : Prop :=
  ∀ r, r ∈ table_rows s "products" → ∃ z, stock_of r = Some z ∧ 0 ≤ z.

(** Every product row holds at least what [d] asks of its product. *)
Definition covers (d : Z → Z) (s : store) : Prop :=
  ∀ r, r ∈ table_rows s "products" →
    ∃ z, stock_of r = Some z ∧
         match r !! "product_id" with
         | Some (VInt pid) => d pid ≤ z
         | _ => 0 ≤ z
         end.

(** The last thing a run showed is the summary of a created order. *)
Definition succeeded (w : world) : bool :=
  match last (ui w) with
  | Some (UiSummary _ _ _ _) => true
  | _ => false
  end.

(** The session at step 5 after two runs of "Add to Cart", 3 of P1 each,
    with [stock] of P1 displayed. *)
Definition scenario_twice (stock : Z) : world :=
  World (shop stock) []
        (at_step5 "Pending"
           (add_to_cart (P1 stock) 3 50 (add_to_cart (P1 stock) 3 50 []).1).1) [].

(** ** Reasoning about runs *)

(** The request behind a call of [execute_query], when it gets that far. *)
Definition request_of (tbl : string) (op : operation) (kw : kwargs) : option request :=
  match op with
  | OpSelect => Some (ReqSelect tbl (kw_eq kw) (kw_neq kw))
  | OpInsert => ReqInsert tbl <$> kw_data kw
  | OpUpdate => (fun data => ReqUpdate tbl data (kw_eq kw)) <$> kw_data kw
  end.

(** [m] takes every world to one related to it by [R], whether it returns
    or raises. *)
Definition preserves (R : relation world) {A} (m : M A) : Prop :=
  ∀ w, R w (after m w).

(** From a world in [P], [m] ends in a world in [Q], whether it returns or
    raises. *)
Definition hoare (P : world → Prop) {A} (m : M A) (Q : world → Prop) : Prop :=
  ∀ w, P w → Q (after m w).

(** The session is the same. *)
Definition same_session : relation world :=
  fun w w' => session w' = session w.

(** No row has left a table other than [products], and none has moved. *)
Definition rows_kept : relation world :=
  fun w w' => ∀ tbl, tbl ≠ "products" →
    table_rows (db w) tbl `prefix_of` table_rows (db w') tbl.

(** The session and the product rows are the same. *)
Definition products_kept : relation world :=
  fun w w' => session w' = session w ∧
              table_rows (db w') "products" = table_rows (db w) "products".

(** What a run has shown since [w]. *)
Definition shown_since (w w' : world) : list ui_event :=
  drop (length (ui w)) (ui w').

(** The backend serves the next [n] requests. *)
Definition served (n : nat) (w : world) : Prop :=
  Forall (eq false) (take n (faults w)).

(** The update that writes [stock] for product [pid]. *)
Definition set_stock (pid stock : Z) (r : row) : row :=
  update_row (dict [("stock_quantity", VInt stock)]) [("product_id", VInt pid)] r.

(** The product rows that the read-back of [pid] finds. *)
Definition found_products (pid : Z) (s : store) : list row :=
  filter (fun r => matches [("product_id", VInt pid)] [] r = true)
         (table_rows s "products").

(** * The rest of the application *)

(** ** Passwords

    [hashlib.sha256(s.encode()).hexdigest()] is a parameter, [sha256_hex];
    the salt that [secrets.token_hex(32)] draws is an argument. *)

(** The character ['$'], code 36. *)
Definition dollar : Ascii.ascii := Ascii.ascii_of_nat 36.

(** ['$' in s] *)
Fixpoint has_dollar (s : string) : bool :=
  match s with
  | EmptyString => false
  | String c s' => Ascii.eqb c dollar || has_dollar s'
  end.

(** [s.split('$', 1)] for a string that holds a ['$']: what stands before
    the first one and what follows it. *)
Fixpoint split_dollar (s : string) : option (string * string) :=
  match s with
  | EmptyString => None
  | String c s' =>
      if Ascii.eqb c dollar then Some (EmptyString, s')
      else match split_dollar s' with
           | Some (before, rest) => Some (String c before, rest)
           | None => None
           end
  end.

Section Passwords.
Variable sha256_hex : string → string.

(** [f"{salt}${password_hash}"] *)
Definition hash_password (salt password : string) : string :=
  salt +:+ "$" +:+ sha256_hex (password +:+ salt).

Definition verify_password (password stored_hash : string) : bool :=
  if has_dollar stored_hash then
    match split_dollar stored_hash with
    | Some (salt, password_hash) =>
        String.eqb (sha256_hex (password +:+ salt)) password_hash
    | None => false
    end
  else String.eqb password stored_hash.

(** ** [authenticate_user]

    What the function returns and shows: the user's row, [None] without a
    message, or [None] after "Authentication error". *)




End Passwords.

(** ** The sidebar *)

Definition page_options (user_role : string) : list string :=
  if String.eqb user_role "Manager" then
    ["Dashboard"; "Customers"; "Suppliers"; "Products"; "Employees";
     "Orders"; "Order Items"; "Payments"; "Transportation";
     "Create Order Wizard"; "Bulk Import/Export"; "User Management"]
  else
    ["Dashboard"; "Customers"; "Suppliers"; "Products"; "Employees";
     "Orders"; "Order Items"; "Payments"; "Transportation";
     "Create Order Wizard"].

(** ** [execute_query], the [delete] branch

    The branch builds [supabase.table(table)] and never calls [.delete()]
    on it. The object that [table] returns offers [select], [insert],
    [update] and [delete] only, so the first [.eq(...)], or [.execute()]
    when there is no filter, raises [AttributeError] before any request is
    sent; the wrapper's [except] turns it into a message and [[]]. *)
Definition execute_query_delete (tbl : string) (kw : kwargs) : M (list row) :=
  try_except
    (match kw_eq kw with
     | [] => raise (AttributeError "execute")
     | _ :: _ => raise (AttributeError "eq")
     end)
    (fun e => show (UiDatabaseError e) ;; ret []).

(** ** Messages of the table and bulk pages *)

Inductive page_message :=
| MsgCreated
    (* st.success("Created successfully.") *)
| MsgErrorCreating (e : exn)
    (* st.error(f"Error creating record: {e}") *)
| MsgDeleted (tbl : string) (record_id : Z)
    (* st.success(f"Deleted {table_name} ID {record_id}") *)
| MsgErrorDeleting (e : exn)
    (* st.error(f"Error deleting record: {e}") *)
| MsgErrorInsertingRow (e : exn)
    (* st.error(f"Error inserting row: {e}") *)
| MsgImported (success_count : nat)
    (* st.success(f"Successfully imported {success_count} records ...") *)
| MsgDuplicatesSkipped (skipped : nat)
    (* st.info(f"{len(df_filtered) - success_count} duplicate records were skipped.") *)
| MsgImportFailed (e : exn).
    (* st.error(f"Import failed: {str(e)}") and the line after it *)

(** ** [page_table]: the "Create" and "Confirm Delete" handlers

    Each returns the messages it shows, besides what [execute_query] shows
    itself. [st.rerun()] ends the run after the success message. *)

Definition page_table_create (table_name : string) (values : row) : M (list page_message) :=
  try_except
    (execute_query table_name OpInsert (with_data values) ;;
     ret [MsgCreated])
    (fun e => ret [MsgErrorCreating e]).

Definition page_table_delete (table_name pk : string) (record_id : Z) : M (list page_message) :=
  try_except
    (execute_query_delete table_name (select_where [(pk, VInt record_id)] []) ;;
     ret [MsgDeleted table_name record_id])
    (fun e => ret [MsgErrorDeleting e]).

(** ** [page_bulk]: the import loop

    [rows] are the [row_data] dictionaries of [df_filtered], in order. *)

Fixpoint import_rows (table_name : string) (skip_duplicates : bool)
    (rows : list row) (success_count : nat) : M (nat * list page_message) :=
  match rows with
  | [] => ret (success_count, [])
  | row_data :: rest =>
      one <- try_except
               (execute_query table_name OpInsert (with_data row_data) ;;
                ret (S success_count, []))
               (fun e => ret (success_count,
                              if skip_duplicates then []
                              else [MsgErrorInsertingRow e])) ;;
      more <- import_rows table_name skip_duplicates rest one.1 ;;
      ret (more.1, one.2 ++ more.2)
  end.

Definition bulk_import (table_name : string) (skip_duplicates : bool)
    (rows : list row) : M (list page_message) :=
  try_except
    (done <- import_rows table_name skip_duplicates rows 0 ;;
     ret (done.2 ++ [MsgImported done.1] ++
          if skip_duplicates && (done.1 <? length rows)%nat
          then [MsgDuplicatesSkipped (length rows - done.1)]
          else []))
    (fun e => ret [MsgImportFailed e]).

(** The requests among the next [n] that the backend serves. *)
Definition served_among (n : nat) (schedule : list bool) : nat :=
  n - length (List.filter (fun fault => fault) (take n schedule)).

(** ** The cart's other handlers *)

(** [st.session_state.cart.pop(i)], for the index of a line on display. *)
Definition remove_from_cart (i : nat) (c : list cart_item) : list cart_item :=
  delete i c.

Inductive cart_action :=
| AddToCart (p : product) (qty : Z) (price : float)
| RemoveLine (i : nat)
| ClearCart.

Definition cart_step (c : list cart_item) (a : cart_action) : list cart_item :=
  match a with
  | AddToCart p qty price => (add_to_cart p qty price c).1
  | RemoveLine i => remove_from_cart i c
  | ClearCart => []
  end.

(** The quantity field of the add form: [st.number_input(min_value=1)]. *)
Definition well_formed_action (a : cart_action) : Prop :=
  match a with
  | AddToCart _ qty _ => 1 ≤ qty
  | _ => True
  end.

Definition line_ok (item : cart_item) : Prop :=
  1 ≤ quantity item ∧
  line_total item = int_times_float (quantity item) (unit_price item).

(** ** The wizard from step 2 on

    [rest] is everything the page does once [products] is not empty (the
    cart, payment, transportation and the creation of the order). *)
Definition wizard_from_step2 (rest : list row → M unit) : M unit :=
  products <- step2_products ;;
  match products with
  | [] => show UiNoProducts
  | _ :: _ => rest products
  end.


(** ** Creating the order: more vocabulary *)

(** The [item_data] of a cart line. *)
Definition order_item_data (order_id : value) (item : cart_item) : row :=
  dict [("order_id", order_id); ("product_id", VInt (product_id item));
        ("quantity", VInt (quantity item)); ("price", VFloat (line_total item))].

(** The session and the rows of the tables [ts] are the same. *)
Definition tables_kept (ts : list string) : relation world :=
  fun w w' => session w' = session w ∧
              ∀ t, t ∈ ts → table_rows (db w') t = table_rows (db w) t.

(** What the summary lists as payment and as transportation. *)
Definition payment_listed (s : session_state) : option float :=
  match payment_info s with
  | Some (PaymentRecorded _ pay_amount _) => Some pay_amount
  | _ => None
  end.

Definition transport_listed (s : session_state) : option string :=
  match transport_info s with
  | Some (TransportRecorded _ _ transport_mode _ _ _) => Some transport_mode
  | _ => None
  end.



(** * Properties *)

Ltac run := unfold outcome, after, bind, ret, raise, try_except, show, get_session,
  put_session in *; simpl in *.

(** ** [check_permissions] *)

(** C10: for a logged-in user the check answers [True] for every required
    role other than ['Manager'] ([None] and ['Staff'] included), whatever the
    user's role; it answers [False] exactly when nobody is logged in, or the
    required role is ['Manager'] and the user's role is not. It changes
    nothing. *)
Theorem check_permissions_gates_manager_only (required_role : option string) (w : world) :
  after (check_permissions required_role) w = w ∧
  (outcome (check_permissions required_role) w = Ok false ∨
   outcome (check_permissions required_role) w = Ok true) ∧
  (outcome (check_permissions required_role) w = Ok false ↔
     user (session w) = None ∨
     ∃ u, user (session w) = Some u ∧ required_role = Some "Manager" ∧ role u ≠ "Manager").
Proof.
  unfold check_permissions. run.
  destruct (user (session w)) as [u|] eqn:Hu; simpl;
    [destruct required_role as [r|]; simpl;
      [destruct (String.eqb_spec r "Manager") as [->|Hr];
       destruct (String.eqb_spec (role u) "Manager") as [Hm|Hm]; simpl|]|];
    (split; [done|]); (split; [auto|]);
    (split; [intros H; first [discriminate H | eauto 6] | intros [H | (u' & Hu' & Hr' & Hm')]; congruence]).
Qed.

(** ** [execute_query] *)

(** The wrapper catches every exception: it always returns a list. *)
Lemma execute_query_returns tbl op kw w :
  ∃ rs, outcome (execute_query tbl op kw) w = Ok rs.
Proof.
  unfold execute_query, supabase_execute, kwargs_data. run.
  destruct op, (kw_data kw); simpl; eauto;
    destruct (faults w) as [|[] fs]; simpl; eauto;
    destruct (db w !! tbl); simpl; eauto.
Qed.

(** A round trip to the backend touches neither the session nor the page. *)
Lemma supabase_execute_frame rq w :
  session (after (supabase_execute rq) w) = session w ∧
  ui (after (supabase_execute rq) w) = ui w.
Proof.
  unfold supabase_execute, after.
  destruct (faults w) as [|[] fs]; simpl; try done;
    destruct (backend rq (db w)); done.
Qed.

(** A request that the backend refuses leaves the store as it was. *)
Lemma supabase_execute_raise rq w e :
  outcome (supabase_execute rq) w = Raise e →
  db (after (supabase_execute rq) w) = db w.
Proof.
  unfold supabase_execute, outcome, after.
  destruct (faults w) as [|[] fs]; simpl; try done;
    destruct rq; simpl; destruct (db w !! tbl); simpl; done.
Qed.

(** C9 (as the code has it): when the request behind an insert fails, the
    failure is caught inside [execute_query]: the call shows a "Database
    error" message, leaves the store unchanged and returns the empty list,
    an ordinary value that a select matching no row returns too. *)
Theorem insert_failure_returns_empty_list tbl data w e :
  outcome (supabase_execute (ReqInsert tbl data)) w = Raise e →
  outcome (execute_query tbl OpInsert (with_data data)) w = Ok [] ∧
  db (after (execute_query tbl OpInsert (with_data data)) w) = db w ∧
  ui (after (execute_query tbl OpInsert (with_data data)) w)
    = ui w ++ [UiDatabaseError e].
Proof.
  intros H. pose proof (supabase_execute_raise _ _ _ H) as Hdb.
  unfold execute_query, kwargs_data, with_data. run.
  destruct (supabase_execute (ReqInsert tbl data) w) as [[rs|e'] w'] eqn:E;
    simpl in *; [discriminate|].
  injection H as ->. destruct (supabase_execute_frame (ReqInsert tbl data) w) as [_ Hui].
  unfold after in Hui. rewrite E in Hui. simpl in Hui. rewrite Hui. done.
Qed.

Lemma insert_failure_returns_empty_list_witness :
  outcome (execute_query "orders" OpInsert (with_data (dict [("status", VStr "Pending")])))
          (World (shop 10) [true] (at_step5 "Pending" []) [])
  = Ok [].
Proof.
  apply (insert_failure_returns_empty_list "orders" _
           (World (shop 10) [true] (at_step5 "Pending" []) []) APIError).
  reflexivity.
Defined.

(** C9 as stated fails: an insert that meets a backend failure and a select
    over an empty table return the same value, the empty list. *)
Lemma insert_failure_is_not_a_distinct_result :
  outcome (execute_query "orders" OpInsert (with_data (dict [("status", VStr "Pending")])))
          (World (shop 10) [true] (at_step5 "Pending" []) [])
  = outcome (execute_query "orders" OpSelect (select_where [] []))
            (World (shop 10) [] (at_step5 "Pending" []) []).
Proof. reflexivity. Qed.

(** ** Step 2 of the wizard *)

Lemma matches_eq_and_neq f r : matches [f] [f] r = false.
Proof.
  unfold matches, col_eq, col_neq. simpl.
  destruct (r !! f.1) as [x|]; simpl; [|done].
  destruct (value_eqb x f.2) eqn:E; simpl; [|done].
  destruct x, f.2; simpl in *; try discriminate; rewrite ?E; done.
Qed.

Lemma filter_eq_and_neq f (l : list row) :
  filter (fun r => matches [f] [f] r = true) l = [].
Proof.
  induction l as [|r l IH]; [done|].
  rewrite filter_cons_False; [done|]. rewrite matches_eq_and_neq. done.
Qed.

Lemma step2_products_run w :
  ∃ shown, step2_products w
           = (Ok [], World (db w) (tl (faults w)) (session w) (ui w ++ shown)).
Proof.
  unfold step2_products, execute_query, supabase_execute, select_where. run.
  destruct (faults w) as [|[] fs]; simpl;
    try destruct (db w !! "products"); simpl; rewrite ?filter_eq_and_neq;
    first [ by exists [UiDatabaseError APIError]
          | exists []; by rewrite app_nil_r ].
Qed.

(** C4 (what the code does instead): the step-2 query asks for the products
    whose [stock_quantity] equals 0 and differs from 0. It returns no row in
    every store, so step 2 always stops at "No products available with
    stock" and offers nothing. *)
Theorem step2_offers_no_product (w : world) :
  outcome step2_products w = Ok [] ∧
  outcome step2_build_cart w = Ok None ∧
  ∃ shown, ui (after step2_build_cart w) = ui w ++ shown ++ [UiNoProducts].
Proof.
  destruct (step2_products_run w) as [shown H].
  unfold step2_build_cart. run. rewrite H. simpl.
  repeat split. exists shown. by rewrite app_assoc.
Qed.

(** ** The cart *)


Lemma find_same_product_none pid c :
  find (same_product pid) c = None →
  List.filter (same_product pid) c = [] ∧ pid ∉ product_id <$> c.
Proof.
  induction c as [|x c IH]; simpl.
  - intros _. split; [done|]. apply not_elem_of_nil.
  - destruct (same_product pid x) eqn:E; [done|]. intros H.
    destruct (IH H) as [Hf Hn]. split; [done|].
    rewrite not_elem_of_cons. split; [|done].
    unfold same_product in E. apply Z.eqb_neq in E. congruence.
Qed.


Lemma update_existing_ids pid qty c :
  product_id <$> update_existing pid qty c = product_id <$> c.
Proof.
  induction c as [|x c IH]; simpl; [done|].
  destruct (same_product pid x); simpl; [done|]. f_equal. exact IH.
Qed.



(** C6 (what the code does instead): the handler compares the added
    quantity alone with the stock. With 3 of P1 already in the cart and 5 in
    stock, adding 3 more is accepted and the line asks for 6. *)
Theorem add_to_cart_accepts_beyond_stock :
  add_to_cart (P1 5) 3 50 (add_to_cart (P1 5) 3 50 []).1
  = ([CartItem 1 "P1" 6 50 300], UiUpdated "P1").
Proof. reflexivity. Qed.

(** The handler refuses a call exactly when the added quantity alone exceeds
    the stock, whatever the cart holds. *)
Lemma add_to_cart_refuses_iff p qty price c :
  (add_to_cart p qty price c).2 = UiOnlyAvailable (p_stock_quantity p)
  ↔ p_stock_quantity p < qty.
Proof.
  unfold add_to_cart.
  destruct (Z.leb_spec qty (p_stock_quantity p)) as [H|H].
  - destruct (find _ c); simpl; split; intros; [discriminate|lia|discriminate|lia].
  - simpl. split; [done|done].
Qed.

(** ** Creating the order: the scenario *)

(** C8: in the shop with customer C1, employee E1 and P1 (stock 10, price
    50), creating the order for a cart of 3 of P1 at 50, payment and
    transportation skipped, stores one order, one order item with quantity 3
    and price 150 (the line total), leaves P1 with 7 in stock and stores no
    payment and no transportation. *)
Theorem scenario_creates_one_order_one_item (status : string) :
  outcome (create_complete_order false) (scenario 10 [] status) = Ok tt ∧
  table_rows (db (after (create_complete_order false) (scenario 10 [] status))) "orders"
    = [dict [("order_id", VInt 1); ("customer_id", VInt 1); ("employee_id", VInt 1);
             ("order_date", VStr "2025-01-15"); ("status", VStr status)]] ∧
  table_rows (db (after (create_complete_order false) (scenario 10 [] status))) "order_items"
    = [dict [("order_item_id", VInt 1); ("order_id", VInt 1); ("product_id", VInt 1);
             ("quantity", VInt 3); ("price", VFloat 150)]] ∧
  table_rows (db (after (create_complete_order false) (scenario 10 [] status))) "products"
    = [product_row 1 "P1" 50 7] ∧
  table_rows (db (after (create_complete_order false) (scenario 10 [] status))) "payments" = [] ∧
  table_rows (db (after (create_complete_order false) (scenario 10 [] status))) "transportation"
    = [] ∧
  ui (after (create_complete_order false) (scenario 10 [] status))
    = [UiOrderCreated (VInt 1); UiSummary (VInt 1) 1 None None].
Proof. repeat split; vm_compute; reflexivity. Qed.

(** ** Creating the order: what goes wrong *)

Lemma stock_nonneg_shop stock : 0 ≤ stock → stock_nonneg (shop stock).
Proof.
  intros H r Hr. change (table_rows (shop stock) "products")
    with [product_row 1 "P1" 50 stock] in Hr.
  apply list_elem_of_singleton in Hr as ->. exists stock. done.
Qed.


(** C2 as stated fails: with 5 of P1 in stock, two accepted "Add to Cart"
    runs of 3 each make a cart line of 6, and creating the order writes a
    stock of -1. *)
Lemma commit_makes_stock_negative :
  stock_nonneg (shop 5) ∧
  ¬ stock_nonneg (db (after (create_complete_order false) (scenario_twice 5))).
Proof.
  split; [by apply stock_nonneg_shop|].
  intros H. destruct (H (product_row 1 "P1" 50 (-1))) as (z & Hz & Hpos).
  - vm_compute. apply list_elem_of_singleton. reflexivity.
  - vm_compute in Hz. injection Hz as <-. lia.
Qed.

(** C3 as stated fails: asked for 6 with 5 in stock, the deduction raises
    nothing and writes -1. *)
Lemma deduction_beyond_stock_is_written :
  outcome (update_product_stock (CartItem 1 "P1" 6 50 300)) (scenario 5 [] "Pending") = Ok tt ∧
  table_rows (db (after (update_product_stock (CartItem 1 "P1" 6 50 300))
                        (scenario 5 [] "Pending"))) "products"
    = [product_row 1 "P1" 50 (-1)].
Proof. split; vm_compute; reflexivity. Qed.

(** C7 as stated fails: the run that creates the order of the scenario ends
    with the summary and leaves the wizard at step 5 with its cart. *)
Lemma successful_commit_keeps_cart :
  succeeded (after (create_complete_order false) (scenario 10 [] "Pending")) = true ∧
  session (after (create_complete_order false) (scenario 10 [] "Pending"))
    = at_step5 "Pending" [CartItem 1 "P1" 3 50 150].
Proof. split; vm_compute; reflexivity. Qed.

(** ** Runs, step by step *)

Lemma after_bind {A B} (m : M A) (k : A → M B) w :
  after (bind m k) w
  = match outcome m w with
    | Ok a => after (k a) (after m w)
    | Raise _ => after m w
    end.
Proof. unfold after, outcome, bind. by destruct (m w) as [[a|e] w']. Qed.

Lemma outcome_bind {A B} (m : M A) (k : A → M B) w :
  outcome (bind m k) w
  = match outcome m w with
    | Ok a => outcome (k a) (after m w)
    | Raise e => Raise e
    end.
Proof. unfold after, outcome, bind. by destruct (m w) as [[a|e] w']. Qed.

Lemma after_try_except {A} (body : M A) (handler : exn → M A) w :
  after (try_except body handler) w
  = match outcome body w with
    | Ok _ => after body w
    | Raise e => after (handler e) (after body w)
    end.
Proof. unfold after, outcome, try_except. by destruct (body w) as [[a|e] w']. Qed.

Section Preserves.
Context (R : relation world) `{!PreOrder R}.

Lemma preserves_ret {A} (a : A) : preserves R (ret a).
Proof. intros w. reflexivity. Qed.

Lemma preserves_raise {A} e : preserves R (@raise A e).
Proof. intros w. reflexivity. Qed.

Lemma preserves_get_session : preserves R get_session.
Proof. intros w. reflexivity. Qed.

Lemma preserves_bind {A B} (m : M A) (k : A → M B) :
  preserves R m → (∀ a, preserves R (k a)) → preserves R (bind m k).
Proof.
  intros Hm Hk w. rewrite after_bind.
  destruct (outcome m w); [|apply Hm].
  etrans; [apply Hm|apply Hk].
Qed.

Lemma preserves_try_except {A} (body : M A) handler :
  preserves R body → (∀ e, preserves R (handler e)) →
  preserves R (try_except body handler).
Proof.
  intros Hb Hh w. rewrite after_try_except.
  destruct (outcome body w); [apply Hb|].
  etrans; [apply Hb|apply Hh].
Qed.

Lemma preserves_for_each {A} (xs : list A) body :
  (∀ x, preserves R (body x)) → preserves R (for_each xs body).
Proof.
  intros Hb. induction xs as [|x xs IH]; simpl.
  - apply preserves_ret.
  - apply preserves_bind; auto.
Qed.

Lemma preserves_hoare {A} (m : M A) (P : world → Prop) :
  preserves R m → (∀ w w', R w w' → P w → P w') → hoare P m P.
Proof. intros Hm HP w Hw. eapply HP; [apply Hm|done]. Qed.
End Preserves.

Lemma hoare_bind {A B} (P Q Q' : world → Prop) (m : M A) (k : A → M B) :
  hoare P m Q → (∀ a, hoare Q (k a) Q') → (∀ w, Q w → Q' w) →
  hoare P (bind m k) Q'.
Proof.
  intros Hm Hk HQ w Hw. rewrite after_bind.
  destruct (outcome m w); [apply Hk|apply HQ]; by apply Hm.
Qed.

Lemma hoare_try_except {A} (P Q Q' : world → Prop) (body : M A) handler :
  hoare P body Q → (∀ e, hoare Q (handler e) Q') → (∀ w, Q w → Q' w) →
  hoare P (try_except body handler) Q'.
Proof.
  intros Hb Hh HQ w Hw. rewrite after_try_except.
  destruct (outcome body w); [apply HQ|apply Hh]; by apply Hb.
Qed.

Global Instance same_session_preorder : PreOrder same_session.
Proof. split; [done|]. intros x y z Hxy Hyz. unfold same_session in *. congruence. Qed.

Global Instance rows_kept_preorder : PreOrder rows_kept.
Proof.
  split; [by intros x tbl _|].
  intros x y z Hxy Hyz tbl Htbl. etrans; [by apply Hxy|by apply Hyz].
Qed.

Global Instance products_kept_preorder : PreOrder products_kept.
Proof.
  split; [by intros x; split|].
  intros x y z [? ?] [? ?]. unfold products_kept. split; congruence.
Qed.

Arguments backend : simpl never.
Arguments supabase_execute : simpl never.

(** What a call of [execute_query] comes to: the backend refused or was not
    reached, and the call returns the empty list with the store as it was;
    or the backend served the request. The session is never touched. *)
Lemma execute_query_cases tbl op kw w :
  session (after (execute_query tbl op kw) w) = session w ∧
  ((outcome (execute_query tbl op kw) w = Ok [] ∧
    db (after (execute_query tbl op kw) w) = db w) ∨
   (∃ rq rs, request_of tbl op kw = Some rq ∧
             backend rq (db w) = (Ok rs, db (after (execute_query tbl op kw) w)) ∧
             outcome (execute_query tbl op kw) w = Ok rs ∧
             ui (after (execute_query tbl op kw) w) = ui w)).
Proof.
  pose proof (supabase_execute_frame) as Hframe.
  pose proof (supabase_execute_raise) as Hraise.
  unfold execute_query, kwargs_data, request_of.
  unfold outcome, after, bind, ret, raise, try_except, show in *.
  destruct op; simpl.
  1: set (rq := ReqSelect tbl (kw_eq kw) (kw_neq kw)).
  2,3: destruct (kw_data kw) as [data|]; simpl; [|by auto].
  2: set (rq := ReqInsert tbl data).
  3: set (rq := ReqUpdate tbl data (kw_eq kw)).
  all: specialize (Hframe rq w); specialize (Hraise rq w); clearbody rq.
  all: destruct (supabase_execute rq w) as [[rs|e] w'] eqn:E; simpl in *.
  all: destruct Hframe as [Hs Hu]; (split; [done|]).
  all: first [ left; split; [done|]; by eapply Hraise | right; exists rq, rs ].
  all: repeat split; try done.
  all: revert E; unfold supabase_execute; destruct (faults w) as [|[] fs]; try done.
  all: destruct (backend rq (db w)) as [r s]; by intros [= -> <-].
Qed.

(** ** The backend, table by table *)

Lemma table_rows_insert (s : store) tbl t tbl' :
  table_rows (<[tbl := t]> s) tbl'
  = if decide (tbl = tbl') then rows t else table_rows s tbl'.
Proof.
  unfold table_rows. rewrite lookup_insert.
  destruct (decide (tbl = tbl')); done.
Qed.

Lemma backend_select tbl eqs neqs s rs s' :
  backend (ReqSelect tbl eqs neqs) s = (Ok rs, s') →
  s' = s ∧ rs = filter (fun r => matches eqs neqs r = true) (table_rows s tbl).
Proof.
  unfold backend, table_rows. destruct (s !! tbl); intros [= <- <-]; done.
Qed.

Lemma backend_insert tbl data s rs s' :
  backend (ReqInsert tbl data) s = (Ok rs, s') →
  ∃ t, s !! tbl = Some t ∧
       rs = [<[pk_col t := VInt (next_id t)]> data] ∧
       ∀ tbl', table_rows s' tbl'
               = if decide (tbl = tbl') then table_rows s tbl ++ rs
                 else table_rows s tbl'.
Proof.
  unfold backend. destruct (s !! tbl) as [t|] eqn:E; intros [= <- <-].
  exists t. repeat split. intros tbl'. rewrite table_rows_insert.
  destruct (decide (tbl = tbl')); [|done]. unfold table_rows. by rewrite E.
Qed.

Lemma backend_update tbl data eqs s rs s' :
  backend (ReqUpdate tbl data eqs) s = (Ok rs, s') →
  ∀ tbl', table_rows s' tbl'
          = if decide (tbl = tbl') then update_row data eqs <$> table_rows s tbl
            else table_rows s tbl'.
Proof.
  unfold backend. destruct (s !! tbl) as [t|] eqn:E; intros [= <- <-].
  intros tbl'. rewrite table_rows_insert.
  destruct (decide (tbl = tbl')); [|done]. unfold table_rows. by rewrite E.
Qed.

(** ** What each kind of call keeps *)

Lemma execute_query_same_session tbl op kw :
  preserves same_session (execute_query tbl op kw).
Proof. intros w. apply execute_query_cases. Qed.

Lemma execute_query_rows_kept tbl op kw :
  op ≠ OpUpdate ∨ tbl = "products" →
  preserves rows_kept (execute_query tbl op kw).
Proof.
  intros Hop w tbl' Htbl'.
  destruct (execute_query_cases tbl op kw w) as [_ [[_ ->]|(rq & rs & Hrq & Hb & _)]];
    [done|].
  destruct op; simpl in Hrq.
  - injection Hrq as <-. by apply backend_select in Hb as [-> _].
  - destruct (kw_data kw) as [data|]; [|done]. injection Hrq as <-.
    apply backend_insert in Hb as (t & _ & _ & ->).
    destruct (decide (tbl = tbl')) as [->|]; [by apply prefix_app_r|done].
  - destruct (kw_data kw) as [data|]; [|done]. injection Hrq as <-.
    destruct Hop as [?| ->]; [done|].
    rewrite (backend_update _ _ _ _ _ _ Hb).
    destruct (decide ("products" = tbl')); [congruence|done].
Qed.

Lemma execute_query_products_kept tbl op kw :
  op = OpSelect ∨ (op = OpInsert ∧ tbl ≠ "products") →
  preserves products_kept (execute_query tbl op kw).
Proof.
  intros Hop w.
  destruct (execute_query_cases tbl op kw w) as [Hs [[_ Hdb]|(rq & rs & Hrq & Hb & _)]];
    (split; [done|]); [by rewrite Hdb|].
  destruct Hop as [->|[-> Htbl]]; simpl in Hrq.
  - injection Hrq as <-. by apply backend_select in Hb as [-> _].
  - destruct (kw_data kw) as [data|]; [|done]. injection Hrq as <-.
    apply backend_insert in Hb as (t & _ & _ & ->).
    destruct (decide (tbl = "products")); done.
Qed.

Lemma show_same_session e : preserves same_session (show e).
Proof. done. Qed.

Lemma show_rows_kept e : preserves rows_kept (show e).
Proof. by intros w tbl _. Qed.

Lemma show_products_kept e : preserves products_kept (show e).
Proof. by intros w. Qed.

Lemma put_session_rows_kept s : preserves rows_kept (put_session s).
Proof. by intros w tbl _. Qed.

(** One step of a proof that a computation keeps a relation: through the
    monad's operations and the case distinctions, down to the calls. *)
Ltac preserve_step :=
  first
    [ apply preserves_ret; apply _
    | apply preserves_raise; apply _
    | apply preserves_get_session; apply _
    | apply show_same_session
    | apply show_rows_kept
    | apply show_products_kept
    | apply put_session_rows_kept
    | apply execute_query_same_session
    | apply execute_query_rows_kept; by auto
    | apply execute_query_products_kept; by auto
    | apply preserves_bind; [apply _| |intros ?]
    | apply preserves_try_except; [apply _| |intros ?]
    | apply preserves_for_each; [apply _|intros ?]
    | match goal with
      | |- preserves _ (match ?x with _ => _ end) => destruct x
      end
    | progress cbv zeta
    | progress unfold attr, getitem, index0, as_int, kwargs_data ].

Ltac preserve :=
  unfold attr, getitem, index0, as_int, kwargs_data; repeat preserve_step.

Lemma insert_order_item_keeps order_id item :
  preserves same_session (insert_order_item order_id item) ∧
  preserves rows_kept (insert_order_item order_id item) ∧
  preserves products_kept (insert_order_item order_id item).
Proof. unfold insert_order_item. split_and!; preserve. Qed.

Lemma update_product_stock_keeps item :
  preserves same_session (update_product_stock item) ∧
  preserves rows_kept (update_product_stock item).
Proof. unfold update_product_stock. split_and!; preserve. Qed.

Lemma create_payment_keeps order_id :
  preserves same_session (create_payment order_id) ∧
  preserves rows_kept (create_payment order_id) ∧
  preserves products_kept (create_payment order_id).
Proof. unfold create_payment. split_and!; preserve. Qed.

Lemma create_transportation_keeps order_id :
  preserves same_session (create_transportation order_id) ∧
  preserves rows_kept (create_transportation order_id) ∧
  preserves products_kept (create_transportation order_id).
Proof. unfold create_transportation. split_and!; preserve. Qed.

Lemma show_created_keeps order_id :
  preserves same_session (show_created order_id) ∧
  preserves rows_kept (show_created order_id) ∧
  preserves products_kept (show_created order_id).
Proof. unfold show_created. split_and!; preserve. Qed.

Lemma create_items_and_update_stock_keeps order_id :
  preserves same_session (create_items_and_update_stock order_id) ∧
  preserves rows_kept (create_items_and_update_stock order_id).
Proof.
  unfold create_items_and_update_stock.
  split_and!; preserve.
Qed.

Lemma write_order_keeps first :
  preserves same_session (write_order first) ∧
  preserves rows_kept (write_order first).
Proof.
  unfold write_order.
  split_and!; preserve.
Qed.

(** ** The session after "Create Complete Order" *)

Lemma bind_ok_inv {A B} (m : M A) (k : A → M B) w b :
  outcome (bind m k) w = Ok b →
  ∃ a, outcome m w = Ok a ∧
       outcome (k a) (after m w) = Ok b ∧
       after (bind m k) w = after (k a) (after m w).
Proof.
  rewrite outcome_bind, after_bind.
  destruct (outcome m w) as [a|e]; [|done]. intros H. by exists a.
Qed.

Lemma show_created_ok order_id w :
  outcome (show_created order_id) w = Ok tt →
  succeeded (after (show_created order_id) w) = true.
Proof.
  unfold show_created, attr, succeeded. run.
  destruct (cart (session w)); simpl; [|done].
  destruct (payment_info (session w)); simpl; [|done].
  destruct (transport_info (session w)); simpl; [|done].
  intros _. by rewrite last_snoc.
Qed.

Lemma write_order_ok first w :
  outcome (write_order first) w = Ok tt →
  succeeded (after (write_order first) w) = true.
Proof.
  unfold write_order. intros H.
  apply bind_ok_inv in H as (order_id & _ & H & ->).
  apply bind_ok_inv in H as (? & _ & H & ->).
  apply bind_ok_inv in H as (? & _ & H & ->).
  apply bind_ok_inv in H as (? & _ & H & ->).
  by apply show_created_ok.
Qed.

Lemma order_data_pure w : after order_data w = w.
Proof.
  unfold order_data, attr. run.
  destruct (order_info (session w)) as [[]|]; done.
Qed.

(** C7 (as the code has it): the run that creates the order clears nothing
    by itself. The cart and the step captures are deleted only when the
    nested "Create Another Order" button reads true in that same run, and
    then only once the summary has been shown; in every other case the
    session is left as it was. *)
Theorem create_complete_order_clears_only_on_button (w : world) :
  session (after (create_complete_order false) w) = session w ∧
  session (after (create_complete_order true) w)
  = if succeeded (after (create_complete_order true) w)
    then clear_wizard (session w)
    else session w.
Proof.
  assert (Hbody : ∀ another,
    session (after (create_complete_order another) w)
    = if another && succeeded (after (create_complete_order another) w)
      then clear_wizard (session w) else session w).
  { intros another. unfold create_complete_order.
    rewrite after_try_except, outcome_bind, after_bind.
    rewrite order_data_pure.
    destruct (outcome order_data w) as [data|e];
      [|unfold succeeded; run; rewrite last_snoc; by rewrite andb_false_r].
    rewrite outcome_bind, after_bind.
    pose proof (execute_query_same_session "orders" OpInsert (with_data data) w) as Hs.
    unfold same_session in Hs.
    destruct (execute_query_returns "orders" OpInsert (with_data data) w) as [rs ->].
    set (w1 := after (execute_query "orders" OpInsert (with_data data)) w) in *.
    destruct rs as [|first rest].
    { unfold succeeded. run. rewrite last_snoc. by rewrite andb_false_r. }
    rewrite outcome_bind, after_bind.
    destruct (write_order_keeps first) as [Hw _]. specialize (Hw w1).
    unfold same_session in Hw.
    pose proof (write_order_ok first w1) as Hok.
    set (w2 := after (write_order first) w1) in *.
    destruct (outcome (write_order first) w1) as [[]|e];
      [|unfold succeeded; run; rewrite last_snoc, andb_false_r; congruence].
    specialize (Hok eq_refl).
    destruct another; run.
    - unfold succeeded in *. simpl. rewrite Hok. simpl. congruence.
    - congruence. }
  split.
  - apply (Hbody false).
  - apply (Hbody true).
Qed.

(** ** No compensation *)




(** ** The stock deduction *)

Lemma served_split w :
  served 2 w →
  served 1 w ∧
  served 1 (World (db w) (tl (faults w)) (session w) (ui w)).
Proof.
  unfold served. simpl. destruct (faults w) as [|a [|b l]]; simpl; intros H.
  - done.
  - split; [done|]. constructor.
  - inversion H as [|? ? ? H']; subst. inversion H'; subst.
    split; repeat constructor.
Qed.

Lemma execute_query_served tbl op kw w rq rs s :
  served 1 w →
  request_of tbl op kw = Some rq →
  backend rq (db w) = (Ok rs, s) →
  execute_query tbl op kw w
  = (Ok rs, World s (tl (faults w)) (session w) (ui w)).
Proof.
  unfold served, execute_query, request_of, kwargs_data, supabase_execute.
  intros Hf Hrq Hb. run.
  assert (Hfl : match faults w with true :: _ => False | _ => True end).
  { destruct (faults w) as [|[] l]; simpl in *; [done| |done]. by inversion Hf. }
  destruct op; simpl in *.
  2,3: destruct (kw_data kw) as [data|]; simpl in *; [|done].
  all: injection Hrq as <-.
  all: destruct (faults w) as [|[] l]; simpl; [|done|]; by rewrite Hb.
Qed.

(** C3 (as the code has it): when the backend serves the read-back and the
    write and the product is found with an integer stock, the deduction
    writes that stock minus the requested quantity into the product's rows
    for every requested quantity, also one that exceeds the stock; it
    compares nothing, raises nothing and shows nothing. *)
Theorem update_product_stock_writes_difference item w r0 others stock :
  served 2 w →
  found_products (product_id item) (db w) = r0 :: others →
  r0 !! "stock_quantity" = Some (VInt stock) →
  outcome (update_product_stock item) w = Ok tt ∧
  table_rows (db (after (update_product_stock item) w)) "products"
    = set_stock (product_id item) (stock - quantity item)
        <$> table_rows (db w) "products" ∧
  ui (after (update_product_stock item) w) = ui w.
Proof.
  intros [Hf1 Hf2]%served_split Hfound Hstock.
  unfold found_products, table_rows in Hfound.
  destruct (db w !! "products") as [t|] eqn:Ht; [|done].
  unfold update_product_stock, outcome, after, bind.
  rewrite (execute_query_served _ _ _ _
             (ReqSelect "products" [("product_id", VInt (product_id item))] [])
             (r0 :: others) (db w));
    [|done|reflexivity|by unfold backend; rewrite Ht, Hfound].
  unfold index0, getitem, as_int, ret. rewrite Hstock.
  erewrite execute_query_served;
    [|done|reflexivity|by unfold backend; simpl; rewrite Ht].
  simpl. split; [done|]. split; [|done].
  rewrite table_rows_insert. simpl. unfold table_rows. by rewrite Ht.
Qed.

Lemma update_product_stock_writes_difference_witness :
  table_rows (db (after (update_product_stock (CartItem 1 "P1" 6 50 300))
                        (scenario 5 [] "Pending"))) "products"
  = set_stock 1 (5 - 6) <$> table_rows (shop 5) "products".
Proof.
  apply (update_product_stock_writes_difference (CartItem 1 "P1" 6 50 300)
           (scenario 5 [] "Pending") (product_row 1 "P1" 50 5) [] 5).
  - constructor.
  - reflexivity.
  - reflexivity.
Defined.

(** ** Stock never negative, as far as the cart is covered *)

Lemma matches_product_id pid (r : row) :
  matches [("product_id", VInt pid)] [] r = true ↔ r !! "product_id" = Some (VInt pid).
Proof.
  unfold matches, col_eq. simpl. rewrite !andb_true_r.
  destruct (r !! "product_id") as [[]|]; simpl; split; intros H; try done.
  - apply Z.eqb_eq in H. by subst.
  - injection H as ->. apply Z.eqb_refl.
Qed.

Lemma set_stock_found pid stock (r : row) :
  r !! "product_id" = Some (VInt pid) →
  stock_of (set_stock pid stock r) = Some stock ∧
  set_stock pid stock r !! "product_id" = Some (VInt pid).
Proof.
  intros H. unfold set_stock, update_row, stock_of.
  rewrite (proj2 (matches_product_id pid r) H). unfold dict. simpl.
  split.
  - by rewrite (lookup_union_Some_l _ _ _ (VInt stock)).
  - rewrite lookup_union_r; [done|]. done.
Qed.

Lemma set_stock_other pid stock (r : row) :
  r !! "product_id" ≠ Some (VInt pid) → set_stock pid stock r = r.
Proof.
  intros H. unfold set_stock, update_row.
  destruct (matches _ _ r) eqn:E; [|done].
  by apply matches_product_id in E.
Qed.

Lemma demand_nonneg c pid : Forall (fun i => 0 ≤ quantity i) c → 0 ≤ demand c pid.
Proof.
  induction 1 as [|item c Hq _ IH]; simpl; [done|].
  destruct (same_product pid item); lia.
Qed.

Lemma covers_weaken (d d' : Z → Z) s :
  (∀ pid, 0 ≤ d' pid ≤ d pid) → covers d s → covers d' s.
Proof.
  intros Hd H r Hr. destruct (H r Hr) as (z & Hz & Hc). exists z. split; [done|].
  destruct (r !! "product_id") as [[| |pid| |]|]; try done.
  specialize (Hd pid). lia.
Qed.

Lemma covers_nonneg (d : Z → Z) s :
  (∀ pid, 0 ≤ d pid) → covers d s → stock_nonneg s.
Proof.
  intros Hd H r Hr. destruct (H r Hr) as (z & Hz & Hc). exists z. split; [done|].
  destruct (r !! "product_id") as [[| |pid| |]|]; try done.
  specialize (Hd pid). lia.
Qed.

Lemma covers_products_kept d w w' :
  products_kept w w' → covers d (db w) → covers d (db w').
Proof. intros [_ H]. unfold covers. by rewrite H. Qed.

Lemma after_ret {A} (a : A) w : after (ret a) w = w.
Proof. done. Qed.

Lemma outcome_ret {A} (a : A) w : outcome (ret a) w = Ok a.
Proof. done. Qed.

Lemma after_raise {A} e w : after (@raise A e) w = w.
Proof. done. Qed.

Lemma outcome_raise {A} e w : outcome (@raise A e) w = Raise e.
Proof. done. Qed.

Ltac step :=
  repeat (progress (rewrite ?after_bind, ?outcome_bind, ?after_ret, ?outcome_ret,
                      ?after_raise, ?outcome_raise; cbn beta iota zeta)).

(** What the deduction does to the product rows: nothing, or it writes the
    stock it read from a row of the product, less the quantity. *)
Lemma update_product_stock_products item w :
  table_rows (db (after (update_product_stock item) w)) "products"
    = table_rows (db w) "products" ∨
  ∃ r0 stock,
    r0 ∈ table_rows (db w) "products" ∧
    r0 !! "product_id" = Some (VInt (product_id item)) ∧
    stock_of r0 = Some stock ∧
    table_rows (db (after (update_product_stock item) w)) "products"
      = set_stock (product_id item) (stock - quantity item)
          <$> table_rows (db w) "products".
Proof.
  unfold update_product_stock. rewrite after_bind.
  destruct (execute_query_cases "products" OpSelect
              (select_where [("product_id", VInt (product_id item))] []) w)
    as [_ [[-> Hdb]|(rq & rs & [= <-] & Hb & -> & _)]].
  { left. unfold index0. step. by rewrite Hdb. }
  apply backend_select in Hb as [Hdb ->].
  set (w1 := after _ w) in *.
  destruct (filter _ _) as [|r0 others] eqn:Hf.
  { left. unfold index0. step. by rewrite Hdb. }
  assert (Hr0 : r0 ∈ table_rows (db w) "products"
                ∧ r0 !! "product_id" = Some (VInt (product_id item))).
  { assert (H : r0 ∈ r0 :: others) by apply list_elem_of_here.
    rewrite <- Hf in H. apply list_elem_of_filter in H as [Hm Hin].
    split; [done|]. by apply matches_product_id. }
  unfold index0, getitem, as_int. step.
  destruct (r0 !! "stock_quantity") as [v|] eqn:Hv; step; [|left; by rewrite Hdb].
  destruct v as [| |stock| |]; step; try (left; by rewrite Hdb).
  match goal with
  | |- context [after (execute_query "products" OpUpdate ?kw) w1] =>
      destruct (execute_query_cases "products" OpUpdate kw w1)
        as [_ [[-> Hdb']|(rq & rs & [= <-] & Hb & -> & _)]]
  end; step.
  { left. congruence. }
  right. exists r0, stock. unfold stock_of. rewrite Hv.
  split_and!; try apply Hr0; try done.
  rewrite (backend_update _ _ _ _ _ _ Hb). simpl. by rewrite Hdb.
Qed.

Lemma covers_tail item rest s :
  Forall (fun i => 0 ≤ quantity i) (item :: rest) →
  covers (demand (item :: rest)) s → covers (demand rest) s.
Proof.
  intros [Hq Hrest]%Forall_cons. apply covers_weaken. intros pid. simpl.
  pose proof (demand_nonneg rest pid Hrest). destruct (same_product pid item); lia.
Qed.

Lemma update_product_stock_covers item rest w :
  Forall (fun i => 0 ≤ quantity i) (item :: rest) →
  covers (demand (item :: rest)) (db w) →
  covers (demand rest) (db (after (update_product_stock item) w)).
Proof.
  intros Hq Hc.
  pose proof (covers_tail _ _ _ Hq Hc) as Hweak.
  destruct (update_product_stock_products item w)
    as [Hsame|(r0 & stock & Hin & Hpid & Hstock & Hrows)].
  { unfold covers. by rewrite Hsame. }
  destruct (Hc r0 Hin) as (z & Hz & Hcov). rewrite Hpid in Hcov.
  assert (z = stock) as -> by congruence.
  simpl in Hcov. unfold same_product in Hcov. rewrite Z.eqb_refl in Hcov.
  intros r' Hr'. rewrite Hrows in Hr'.
  apply list_elem_of_fmap in Hr' as (r & -> & Hr).
  destruct (matches [("product_id", VInt (product_id item))] [] r) eqn:Hm;
    [apply matches_product_id in Hm
    |assert (r !! "product_id" ≠ Some (VInt (product_id item)))
       by (intros ?%matches_product_id; congruence)].
  - destruct (set_stock_found (product_id item) (stock - quantity item) r Hm) as [-> ->].
    exists (stock - quantity item). split; [done|]. lia.
  - rewrite set_stock_other by done. by apply Hweak.
Qed.

Lemma insert_then_update_covers order_id item rest w :
  Forall (fun i => 0 ≤ quantity i) (item :: rest) →
  covers (demand (item :: rest)) (db w) →
  covers (demand rest)
    (db (after (insert_order_item order_id item ;; update_product_stock item) w)).
Proof.
  intros Hq Hc. rewrite after_bind.
  destruct (insert_order_item_keeps order_id item) as (_ & _ & Hk).
  pose proof (covers_products_kept _ _ _ (Hk w) Hc) as Hc1.
  destruct (outcome _ w).
  - by apply update_product_stock_covers.
  - by eapply covers_tail.
Qed.

Lemma for_each_covers order_id c w :
  Forall (fun i => 0 ≤ quantity i) c →
  covers (demand c) (db w) →
  covers (fun _ => 0)
    (db (after (for_each c (fun item =>
                  insert_order_item order_id item ;; update_product_stock item)) w)).
Proof.
  revert w. induction c as [|item rest IH]; intros w Hq Hc; simpl; [done|].
  rewrite after_bind.
  pose proof (insert_then_update_covers order_id item rest w Hq Hc) as H1.
  apply Forall_cons in Hq as [_ Hq].
  destruct (outcome _ w); [by apply IH|].
  revert H1. apply covers_weaken. intros pid. split; [done|].
  by apply demand_nonneg.
Qed.

Lemma hoare_weaken {A} (P Q Q' : world → Prop) (m : M A) :
  hoare P m Q → (∀ w, Q w → Q' w) → hoare P m Q'.
Proof. intros H HQ w Hw. by apply HQ, H. Qed.

Lemma after_get_session w : after get_session w = w.
Proof. done. Qed.

Lemma outcome_get_session w : outcome get_session w = Ok (session w).
Proof. done. Qed.

(** C2 (as the code has it): creating the order leaves no product with a
    negative stock provided the cart is covered: its quantities are not
    negative and every product row holds at least the quantity that the cart
    lines for its product ask in total. The code itself checks neither. *)
Theorem commit_keeps_covered_stock_nonneg another w c :
  cart (session w) = Some c →
  Forall (fun item => 0 ≤ quantity item) c →
  covers (demand c) (db w) →
  stock_nonneg (db (after (create_complete_order another) w)).
Proof.
  intros Hcart Hq Hc.
  set (P0 := fun w' : world => cart (session w') = Some c ∧ covers (demand c) (db w')).
  set (I := fun w' : world => covers (fun _ => 0) (db w')).
  assert (HP0I : ∀ w', P0 w' → I w').
  { intros w' [_ H]. revert H. apply covers_weaken. intros pid.
    split; [done|]. by apply demand_nonneg. }
  assert (Hk0 : ∀ A (m : M A), preserves products_kept m → hoare P0 m P0).
  { intros A m Hm. apply (preserves_hoare products_kept); [done|].
    intros w1 w2 Hk [H1 H2]. split; [|by eapply covers_products_kept].
    destruct Hk as [-> _]. done. }
  assert (HkI : ∀ A (m : M A), preserves products_kept m → hoare I m I).
  { intros A m Hm. apply (preserves_hoare products_kept); [done|].
    intros w1 w2 Hk H. by eapply covers_products_kept. }
  assert (Hloop : ∀ order_id, hoare P0 (create_items_and_update_stock order_id) I).
  { intros order_id w' [Hcart' Hc']. unfold create_items_and_update_stock, attr.
    rewrite after_bind, outcome_get_session, after_get_session, Hcart'. step.
    by apply for_each_covers. }
  assert (Hwrite : ∀ first, hoare P0 (write_order first) I).
  { intros first. unfold write_order.
    apply (hoare_bind P0 P0 I); [apply Hk0; preserve| |done]. intros order_id.
    apply (hoare_bind P0 I I); [apply Hloop| |done]. intros _.
    apply (hoare_bind I I I); [apply HkI, create_payment_keeps| |done]. intros _.
    apply (hoare_bind I I I); [apply HkI, create_transportation_keeps| |done]. intros _.
    apply HkI, show_created_keeps. }
  apply (covers_nonneg (fun _ => 0)); [done|].
  assert (H : hoare P0 (create_complete_order another) I); [|by apply H].
  unfold create_complete_order.
  apply (hoare_try_except P0 I I); [| |done].
  2: { intros e. apply HkI. preserve. }
  apply (hoare_bind P0 P0 I); [apply Hk0; preserve| |done]. intros data.
  apply (hoare_bind P0 P0 I); [apply Hk0; preserve| |done]. intros [|first rest].
  { apply (hoare_weaken P0 P0 I); [apply Hk0; preserve|done]. }
  apply (hoare_bind P0 I I); [apply Hwrite| |done]. intros _.
  destruct another; [|by intros w' H].
  by intros w' H.
Qed.

Lemma commit_keeps_covered_stock_nonneg_witness :
  stock_nonneg (db (after (create_complete_order false) (scenario 10 [] "Pending"))).
Proof.
  apply (commit_keeps_covered_stock_nonneg false (scenario 10 [] "Pending")
           [CartItem 1 "P1" 3 50 150]).
  - reflexivity.
  - repeat constructor. simpl. lia.
  - intros r Hr. change (table_rows (db (scenario 10 [] "Pending")) "products")
      with [product_row 1 "P1" 50 10] in Hr.
    apply list_elem_of_singleton in Hr as ->. exists 10. split; [reflexivity|].
    vm_compute. discriminate.
Defined.


(** * The rest of the application: properties *)

(** ** Passwords *)

Lemma split_dollar_join salt rest :
  has_dollar salt = false →
  split_dollar (salt +:+ "$" +:+ rest) = Some (salt, rest) ∧
  has_dollar (salt +:+ "$" +:+ rest) = true.
Proof.
  induction salt as [|c salt IH]; simpl; [done|].
  intros [Hc Hs]%orb_false_elim. rewrite Hc. simpl.
  destruct (IH Hs) as [-> ->]. done.
Qed.

Lemma split_dollar_inv s salt rest :
  split_dollar s = Some (salt, rest) →
  s = salt +:+ "$" +:+ rest ∧ has_dollar salt = false.
Proof.
  revert salt. induction s as [|c s IH]; simpl; intros salt; [done|].
  destruct (Ascii.eqb_spec c dollar) as [->|Hc].
  - intros [= <- <-]. done.
  - destruct (split_dollar s) as [[before after]|]; [|done].
    intros [= <- <-]. destruct (IH before eq_refl) as [-> Hb]. simpl.
    split; [done|]. rewrite Hb. by apply Ascii.eqb_neq in Hc as ->.
Qed.

Lemma has_dollar_split s :
  has_dollar s = true → ∃ salt rest, split_dollar s = Some (salt, rest).
Proof.
  induction s as [|c s IH]; simpl; [done|].
  destruct (Ascii.eqb c dollar); simpl; [by eauto|].
  intros (salt & rest & ->)%IH. eauto.
Qed.

(** X1: a hash made by [hash_password] with a salt free of ['$'] (as the
    hexadecimal salt of [token_hex] is) verifies for the password it was
    made from, and for another password exactly when the two have the same
    digest with that salt. *)
Theorem hash_then_verify (sha256_hex : string → string) salt password :
  has_dollar salt = false →
  verify_password sha256_hex password (hash_password sha256_hex salt password) = true ∧
  ∀ other,
    verify_password sha256_hex other (hash_password sha256_hex salt password) = true
    ↔ sha256_hex (other +:+ salt) = sha256_hex (password +:+ salt).
Proof.
  intros Hs. unfold verify_password, hash_password.
  destruct (split_dollar_join salt (sha256_hex (password +:+ salt)) Hs) as [-> ->].
  split; [apply String.eqb_refl|]. intros other. apply String.eqb_eq.
Qed.

Lemma hash_then_verify_witness :
  verify_password (fun s => s) "admin123" (hash_password (fun s => s) "9f3c" "admin123") = true.
Proof.
  destruct (hash_then_verify (fun s => s) "9f3c" "admin123") as [H _].
  - reflexivity.
  - exact H.
Defined.

(** X2: [verify_password] accepts in two cases only: the stored text has no
    ['$'] and equals the password as it is (plain text), or it reads
    [salt$digest], split at its first ['$'], and the digest is that of the
    password followed by the salt. *)
Theorem verify_password_accepts (sha256_hex : string → string) password stored_hash :
  verify_password sha256_hex password stored_hash = true
  ↔ (has_dollar stored_hash = false ∧ password = stored_hash) ∨
    (∃ salt digest,
        stored_hash = salt +:+ "$" +:+ digest ∧
        has_dollar salt = false ∧
        sha256_hex (password +:+ salt) = digest).
Proof.
  unfold verify_password. destruct (has_dollar stored_hash) eqn:Hd.
  - destruct (has_dollar_split _ Hd) as (salt & digest & Hsplit). rewrite Hsplit.
    destruct (split_dollar_inv _ _ _ Hsplit) as [-> Hsalt].
    rewrite String.eqb_eq. split.
    + intros H. right. by exists salt, digest.
    + intros [[? _]|(salt' & digest' & Heq & Hs' & H)]; [done|].
      destruct (split_dollar_join salt' digest' Hs') as [Hsp _].
      rewrite <- Heq, Hsplit in Hsp. by injection Hsp as -> ->.
  - rewrite String.eqb_eq. split; [by left|].
    intros [[_ ?]|(salt & digest & -> & Hs & _)]; [done|].
    destruct (split_dollar_join salt digest Hs) as [_ H]. congruence.
Qed.

(** ** Authentication *)




Lemma outcome_try_except {A} (body : M A) (handler : exn → M A) w :
  outcome (try_except body handler) w
  = match outcome body w with
    | Ok a => Ok a
    | Raise e => outcome (handler e) (after body w)
    end.
Proof. unfold after, outcome, try_except. by destruct (body w) as [[a|e] w']. Qed.


(** ** The sidebar and the page guards *)

(** X4: the sidebar offers "Bulk Import/Export" and "User Management"
    exactly to the users who pass the guard of those two pages,
    [check_permissions('Manager')]; every other page is offered to every
    logged-in user. *)
Theorem sidebar_matches_guards u w :
  user (session w) = Some u →
  ("Bulk Import/Export" ∈ page_options (role u)
     ↔ outcome (check_permissions (Some "Manager")) w = Ok true) ∧
  ("User Management" ∈ page_options (role u)
     ↔ outcome (check_permissions (Some "Manager")) w = Ok true) ∧
  (∀ p, p ∈ page_options "Staff" → p ∈ page_options (role u)).
Proof.
  intros Hu. unfold check_permissions, page_options. run. rewrite Hu. simpl.
  destruct (String.eqb (role u) "Manager"); simpl.
  - split_and!; [split; [done|intros _]..|].
    + apply (bool_decide_unpack _). by vm_compute.
    + apply (bool_decide_unpack _). by vm_compute.
    + intros p Hp. apply list_elem_of_In. apply list_elem_of_In in Hp.
      simpl in *. tauto.
  - split_and!; [split; [intros H|done]..|done];
      apply (bool_decide_pack _) in H; by vm_compute in H.
Qed.

Lemma sidebar_matches_guards_witness :
  "User Management" ∈ page_options "Manager".
Proof.
  destruct (sidebar_matches_guards (User "manager" "Manager")
              (World (shop 10) [] (Session (Some (User "manager" "Manager"))
                                           None None None None None) []))
    as (_ & [_ H] & _).
  - reflexivity.
  - apply H. reflexivity.
Defined.

(** ** Errors that [execute_query] swallows: the callers *)

(** An insert through [execute_query], case by case. *)
Lemma execute_query_insert_run tbl data w :
  execute_query tbl OpInsert (with_data data) w
  = match faults w, db w !! tbl with
    | true :: fs, _ =>
        (Ok [], World (db w) fs (session w) (ui w ++ [UiDatabaseError APIError]))
    | fl, None =>
        (Ok [], World (db w) (tl fl) (session w) (ui w ++ [UiDatabaseError APIError]))
    | fl, Some t =>
        (Ok [<[pk_col t := VInt (next_id t)]> data],
         World (<[tbl := Table (pk_col t) (next_id t + 1)
                           (rows t ++ [<[pk_col t := VInt (next_id t)]> data])]> (db w))
               (tl fl) (session w) (ui w))
    end.
Proof.
  unfold execute_query, kwargs_data, with_data, supabase_execute, backend. run.
  destruct (faults w) as [|[] fs]; simpl; destruct (db w !! tbl); done.
Qed.

(** X5: the "Create" handler of a table page shows "Created successfully."
    in every case, never "Error creating record": a failed insert has been
    caught inside [execute_query], and then nothing was stored. *)
Theorem page_table_create_always_reports_created table_name values w :
  outcome (page_table_create table_name values) w = Ok [MsgCreated] ∧
  ∀ e, outcome (supabase_execute (ReqInsert table_name values)) w = Raise e →
       db (after (page_table_create table_name values) w) = db w.
Proof.
  unfold page_table_create.
  rewrite outcome_try_except, after_try_except. step.
  destruct (execute_query_returns table_name OpInsert (with_data values) w) as [rs Hrs].
  rewrite Hrs. step. split; [done|]. intros e He.
  unfold after. rewrite execute_query_insert_run.
  revert He. unfold supabase_execute, backend, outcome.
  destruct (faults w) as [|[] fs]; destruct (db w !! table_name); done.
Qed.

(** X6: "Confirm Delete" on a table page shows "Deleted ..." and deletes
    nothing: the [delete] branch of [execute_query] sends no request, so
    the store and the backend's schedule are as before. *)
Theorem page_table_delete_deletes_nothing table_name pk record_id w :
  outcome (page_table_delete table_name pk record_id) w
    = Ok [MsgDeleted table_name record_id] ∧
  db (after (page_table_delete table_name pk record_id) w) = db w ∧
  faults (after (page_table_delete table_name pk record_id) w) = faults w ∧
  ui (after (page_table_delete table_name pk record_id) w)
    = ui w ++ [UiDatabaseError (AttributeError "eq")].
Proof. done. Qed.

(** ** Bulk import *)

Lemma served_among_nil n : served_among n [] = n.
Proof. unfold served_among. rewrite take_nil. simpl. lia. Qed.

Lemma served_among_cons n fault schedule :
  served_among (S n) (fault :: schedule)
  = ((if fault then 0 else 1) + served_among n schedule)%nat.
Proof.
  unfold served_among. simpl.
  assert (length (List.filter (fun f : bool => f) (take n schedule)) ≤ n)%nat.
  { etrans; [apply List.filter_length_le|]. rewrite length_take. lia. }
  destruct fault; simpl; lia.
Qed.

Lemma import_rows_run table_name skip_duplicates rows success_count w :
  outcome (import_rows table_name skip_duplicates rows success_count) w
    = Ok ((success_count + length rows)%nat, []) ∧
  length (table_rows (db (after (import_rows table_name skip_duplicates rows
                                   success_count) w)) table_name)
    = (length (table_rows (db w) table_name)
       + match db w !! table_name with
         | Some _ => served_among (length rows) (faults w)
         | None => 0
         end)%nat.
Proof.
  revert success_count w. induction rows as [|row_data rest IH]; intros n w; simpl.
  - step. split; [by rewrite Nat.add_0_r|]. unfold served_among. simpl.
    destruct (db w !! table_name); lia.
  - rewrite outcome_bind, after_bind, outcome_try_except, after_try_except. step.
    destruct (execute_query_returns table_name OpInsert (with_data row_data) w)
      as [rs Hrs]. rewrite Hrs. step. simpl.
    set (w1 := after (execute_query table_name OpInsert (with_data row_data)) w) in *.
    destruct (IH (S n) w1) as [Ho Hl]. rewrite Ho. step. simpl.
    split; [f_equal; f_equal; lia|]. rewrite Hl.
    subst w1. unfold after. rewrite execute_query_insert_run.
    unfold table_rows.
    destruct (faults w) as [|[] fs]; destruct (db w !! table_name) as [t|] eqn:Ht;
      simpl; rewrite ?lookup_insert_eq, ?Ht, ?served_among_nil, ?served_among_cons;
      simpl; rewrite ?length_app; simpl; lia.
Qed.

(** X7: the bulk import always reports every submitted row as imported, and
    never a skipped duplicate or a row error, because the insert's failure
    does not reach the loop; the table itself grows by the number of
    inserts that the backend served (by none when the table is unknown). *)
Theorem bulk_import_reports_every_row table_name skip_duplicates rows w :
  outcome (bulk_import table_name skip_duplicates rows) w
    = Ok [MsgImported (length rows)] ∧
  length (table_rows (db (after (bulk_import table_name skip_duplicates rows) w))
                     table_name)
    = (length (table_rows (db w) table_name)
       + match db w !! table_name with
         | Some _ => served_among (length rows) (faults w)
         | None => 0
         end)%nat.
Proof.
  unfold bulk_import. rewrite outcome_try_except, after_try_except. step.
  destruct (import_rows_run table_name skip_duplicates rows 0 w) as [Ho Hl].
  rewrite Ho. step. simpl. rewrite Nat.ltb_irrefl, andb_false_r. done.
Qed.

(** ** The cart through its handlers *)

Lemma add_to_cart_unique p qty price c :
  NoDup (product_id <$> c) → NoDup (product_id <$> (add_to_cart p qty price c).1).
Proof.
  intros Hnd. unfold add_to_cart.
  destruct (qty <=? p_stock_quantity p); [|done].
  destruct (find (same_product (p_product_id p)) c) as [item|] eqn:Hf; simpl.
  - by rewrite update_existing_ids.
  - destruct (find_same_product_none _ _ Hf) as [_ Hd].
    rewrite fmap_app. simpl. apply NoDup_app. split_and!; [done| |apply NoDup_singleton].
    intros x Hx Hx'. apply list_elem_of_singleton in Hx'. by subst x.
Qed.

Lemma update_existing_line_ok pid qty c :
  1 ≤ qty → Forall line_ok c → Forall line_ok (update_existing pid qty c).
Proof.
  intros Hq. induction 1 as [|item rest [Hi Ht] Hrest IH]; simpl; [done|].
  destruct (same_product pid item).
  - constructor; [|done]. split; simpl; [lia|done].
  - constructor; [done|apply IH].
Qed.

Lemma add_to_cart_line_ok p qty price c :
  1 ≤ qty → Forall line_ok c → Forall line_ok (add_to_cart p qty price c).1.
Proof.
  intros Hq Hc. unfold add_to_cart.
  destruct (qty <=? p_stock_quantity p); [|done].
  destruct (find (same_product (p_product_id p)) c); simpl.
  - by apply update_existing_line_ok.
  - apply Forall_app. split; [done|]. by repeat constructor.
Qed.

(** X8: every cart that the three cart handlers ("Add to Cart", the
    per-line remove button, "Clear Cart") build from the empty cart, with
    added quantities of at least 1 as the quantity field enforces, has at
    most one line per product, and every line has a quantity of at least 1
    and a line total equal to its quantity times its unit price. *)
Theorem cart_handlers_keep_cart_well_formed (actions : list cart_action) :
  Forall well_formed_action actions →
  NoDup (product_id <$> foldl cart_step [] actions) ∧
  Forall line_ok (foldl cart_step [] actions).
Proof.
  induction actions as [|a actions IH] using rev_ind; simpl.
  - intros _. split; [apply NoDup_nil_2|done].
  - intros [Hactions Ha]%Forall_app. apply Forall_inv in Ha.
    destruct (IH Hactions) as [Hnd Hok]. rewrite foldl_snoc.
    destruct a as [p qty price|i|]; simpl in *.
    + split; [by apply add_to_cart_unique|by apply add_to_cart_line_ok].
    + unfold remove_from_cart. split.
      * rewrite list_fmap_delete. eapply sublist_NoDup; [done|apply sublist_delete].
      * apply Forall_forall. intros x Hx.
        eapply Forall_forall in Hok; [done|].
        eapply elem_of_sublist; [done|apply sublist_delete].
    + split; [apply NoDup_nil_2|done].
Qed.

Lemma cart_handlers_keep_cart_well_formed_witness :
  Forall line_ok
    (foldl cart_step [] [AddToCart (P1 10) 3 50; AddToCart (P1 10) 2 50; RemoveLine 0;
                         AddToCart (P1 10) 1 50]).
Proof.
  apply (cart_handlers_keep_cart_well_formed
           [AddToCart (P1 10) 3 50; AddToCart (P1 10) 2 50; RemoveLine 0;
            AddToCart (P1 10) 1 50]).
  repeat constructor; simpl; lia.
Defined.

Lemma update_existing_demand p0 qty c pid :
  demand (update_existing p0 qty c) pid
  = demand c pid
    + match find (same_product p0) c with
      | Some _ => if p0 =? pid then qty else 0
      | None => 0
      end.
Proof.
  induction c as [|item rest IH]; simpl; [done|].
  unfold same_product at 1 3. destruct (Z.eqb_spec (product_id item) p0) as [<-|Hne]; simpl.
  - unfold same_product. simpl. destruct (product_id item =? pid); lia.
  - rewrite IH. lia.
Qed.

(** X9: an accepted "Add to Cart" raises the quantity that the cart asks of
    the added product by exactly the added quantity, whether it merges into
    a line or appends one, and changes no other product's quantity; a
    refused one changes nothing. *)
Theorem add_to_cart_demand p qty price c pid :
  demand (add_to_cart p qty price c).1 pid
  = demand c pid
    + (if (qty <=? p_stock_quantity p) && (p_product_id p =? pid) then qty else 0).
Proof.
  unfold add_to_cart. destruct (qty <=? p_stock_quantity p); simpl; [|lia].
  destruct (find (same_product (p_product_id p)) c) as [item|] eqn:Hf; simpl.
  - rewrite update_existing_demand, Hf. done.
  - clear Hf. induction c as [|item rest IH]; simpl.
    + unfold same_product. simpl. lia.
    + rewrite IH. lia.
Qed.

(** ** The wizard from step 2 on *)

(** X10: whatever the page holds after the product query of step 2, it is
    never run: in every store and session the wizard shows "No products
    available with stock" and returns, with the store and the session as
    they were. No cart is built and no order is created through the page. *)
Theorem wizard_never_passes_step2 (rest : list row → M unit) w :
  outcome (wizard_from_step2 rest) w = Ok tt ∧
  db (after (wizard_from_step2 rest) w) = db w ∧
  session (after (wizard_from_step2 rest) w) = session w ∧
  last (ui (after (wizard_from_step2 rest) w)) = Some UiNoProducts.
Proof.
  destruct (step2_products_run w) as [shown H].
  unfold wizard_from_step2. run. rewrite H. simpl.
  split_and!; try done. by rewrite last_snoc.
Qed.


(** ** Creating the order: when a step fails quietly *)

(** The deduction when the backend serves it and the product is found. *)
Lemma update_product_stock_run item w r0 others stock t :
  served 2 w →
  db w !! "products" = Some t →
  found_products (product_id item) (db w) = r0 :: others →
  r0 !! "stock_quantity" = Some (VInt stock) →
  update_product_stock item w
  = (Ok tt,
     World (<["products" :=
               Table (pk_col t) (next_id t)
                     (set_stock (product_id item) (stock - quantity item) <$> rows t)]>
              (db w))
           (tl (tl (faults w))) (session w) (ui w)).
Proof.
  intros [Hf1 Hf2]%served_split Ht Hfound Hstock.
  unfold found_products, table_rows in Hfound. rewrite Ht in Hfound.
  unfold update_product_stock, bind.
  rewrite (execute_query_served _ _ _ _
             (ReqSelect "products" [("product_id", VInt (product_id item))] [])
             (r0 :: others) (db w));
    [|done|reflexivity|by unfold backend; rewrite Ht, Hfound].
  unfold index0, getitem, as_int, ret. rewrite Hstock.
  erewrite execute_query_served;
    [|done|reflexivity|by unfold backend; simpl; rewrite Ht].
  done.
Qed.

Lemma insert_order_item_after order_id item w :
  insert_order_item order_id item w
  = (Ok tt, after (execute_query "order_items" OpInsert
                     (with_data (order_item_data order_id item))) w).
Proof.
  unfold insert_order_item, order_item_data, after, bind, ret.
  by destruct (execute_query_returns "order_items" OpInsert
                 (with_data (dict [("order_id", order_id);
                                   ("product_id", VInt (product_id item));
                                   ("quantity", VInt (quantity item));
                                   ("price", VFloat (line_total item))])) w)
    as [rs Hrs]; unfold outcome in Hrs;
    destruct (execute_query _ _ _ w) as [[]]; simpl in *.
Qed.

(** X12: a failed insert of an order item does not stop the commit. The
    failure is shown as "Database error" and the loop goes on: when the
    backend then serves the read-back and the write, the product's stock is
    reduced by the line's quantity although no order item was stored. *)
Theorem item_insert_failure_is_ignored order_id item w e r0 others stock :
  outcome (supabase_execute (ReqInsert "order_items" (order_item_data order_id item))) w
    = Raise e →
  served 2 (after (insert_order_item order_id item) w) →
  found_products (product_id item) (db w) = r0 :: others →
  r0 !! "stock_quantity" = Some (VInt stock) →
  outcome (insert_order_item order_id item ;; update_product_stock item) w = Ok tt ∧
  table_rows (db (after (insert_order_item order_id item ;; update_product_stock item) w))
             "order_items"
    = table_rows (db w) "order_items" ∧
  table_rows (db (after (insert_order_item order_id item ;; update_product_stock item) w))
             "products"
    = set_stock (product_id item) (stock - quantity item) <$> table_rows (db w) "products" ∧
  ui (after (insert_order_item order_id item ;; update_product_stock item) w)
    = ui w ++ [UiDatabaseError e].
Proof.
  intros He Hserved Hfound Hstock.
  assert (Hw1 : db (after (insert_order_item order_id item) w) = db w ∧
                ui (after (insert_order_item order_id item) w)
                  = ui w ++ [UiDatabaseError e]).
  { unfold after at 1 2. rewrite insert_order_item_after. simpl.
    unfold after. rewrite execute_query_insert_run.
    revert He. unfold supabase_execute, backend, outcome.
    destruct (faults w) as [|[] fs]; destruct (db w !! "order_items");
      simpl; try done; by intros [= <-]. }
  destruct Hw1 as [Hdb Hui].
  assert (Ht : ∃ t, db w !! "products" = Some t).
  { unfold found_products, table_rows in Hfound.
    destruct (db w !! "products"); [by eexists|done]. }
  destruct Ht as [t Ht].
  assert (Hout : outcome (insert_order_item order_id item) w = Ok tt).
  { unfold outcome. by rewrite insert_order_item_after. }
  rewrite outcome_bind, after_bind, Hout. step.
  set (w1 := after (insert_order_item order_id item) w) in *.
  assert (Hrun := update_product_stock_run item w1 r0 others stock t Hserved).
  rewrite Hdb in Hrun. specialize (Hrun Ht Hfound Hstock).
  unfold outcome, after. rewrite Hrun. simpl.
  split_and!; try done.
  - by rewrite table_rows_insert.
  - rewrite table_rows_insert. simpl. unfold table_rows. by rewrite Ht.
Qed.

Lemma item_insert_failure_is_ignored_witness :
  table_rows
    (db (after (insert_order_item (VInt 1) (CartItem 1 "P1" 3 50 150) ;;
                update_product_stock (CartItem 1 "P1" 3 50 150))
               (scenario 10 [true] "Pending"))) "products"
  = set_stock 1 (10 - 3) <$> table_rows (shop 10) "products".
Proof.
  apply (item_insert_failure_is_ignored (VInt 1) (CartItem 1 "P1" 3 50 150)
           (scenario 10 [true] "Pending") APIError (product_row 1 "P1" 50 10) [] 10).
  - reflexivity.
  - constructor.
  - reflexivity.
  - reflexivity.
Defined.

(** ** Tables that a step leaves alone *)

Global Instance tables_kept_preorder ts : PreOrder (tables_kept ts).
Proof.
  split; [by intros x; split|].
  intros x y z [Hs1 H1] [Hs2 H2]. split; [congruence|].
  intros t Ht. rewrite H2, H1; done.
Qed.

Lemma execute_query_tables_kept tbl op kw ts :
  op = OpSelect ∨ tbl ∉ ts →
  preserves (tables_kept ts) (execute_query tbl op kw).
Proof.
  intros Hop w.
  destruct (execute_query_cases tbl op kw w) as [Hs [[_ Hdb]|(rq & rs & Hrq & Hb & _)]];
    (split; [done|]); intros t Ht; [by rewrite Hdb|].
  assert (Hne : op ≠ OpSelect → tbl ≠ t).
  { intros Hsel ->. by destruct Hop. }
  destruct op; simpl in Hrq.
  - injection Hrq as <-. by apply backend_select in Hb as [-> _].
  - destruct (kw_data kw) as [data|]; [|done]. injection Hrq as <-.
    apply backend_insert in Hb as (? & _ & _ & ->).
    destruct (decide (tbl = t)); [by destruct Hne|done].
  - destruct (kw_data kw) as [data|]; [|done]. injection Hrq as <-.
    rewrite (backend_update _ _ _ _ _ _ Hb).
    destruct (decide (tbl = t)); [by destruct Hne|done].
Qed.

Lemma show_tables_kept ts e : preserves (tables_kept ts) (show e).
Proof. by intros w. Qed.

Ltac keep_step :=
  first
    [ apply show_tables_kept
    | apply execute_query_tables_kept;
        solve [ by left | right; apply (bool_decide_unpack _); by vm_compute ]
    | preserve_step ].

Ltac keep := repeat keep_step.

(** ** What the closing summary lists *)

Lemma show_created_summary order_id w :
  outcome (show_created order_id) w = Ok tt →
  ∃ items,
    last (ui (after (show_created order_id) w))
    = Some (UiSummary order_id items (payment_listed (session w))
                      (transport_listed (session w))).
Proof.
  unfold show_created, attr, payment_listed, transport_listed. run.
  destruct (cart (session w)) as [c|]; simpl; [|done].
  destruct (payment_info (session w)); simpl; [|done].
  destruct (transport_info (session w)); simpl; [|done].
  intros _. exists (length c). by rewrite last_snoc.
Qed.

Lemma write_order_summary first w :
  outcome (write_order first) w = Ok tt →
  ∃ order_id items,
    last (ui (after (write_order first) w))
    = Some (UiSummary order_id items (payment_listed (session w))
                      (transport_listed (session w))).
Proof.
  unfold write_order. intros H.
  apply bind_ok_inv in H as (order_id & _ & H & ->).
  assert (H0 : session (after (getitem first "order_id") w) = session w).
  { unfold getitem. by destruct (first !! "order_id"). }
  apply bind_ok_inv in H as (? & _ & H & ->).
  destruct (create_items_and_update_stock_keeps order_id) as [H1 _].
  specialize (H1 (after (getitem first "order_id") w)).
  apply bind_ok_inv in H as (? & _ & H & ->).
  destruct (create_payment_keeps order_id) as [H2 _].
  specialize (H2 (after (create_items_and_update_stock order_id)
                        (after (getitem first "order_id") w))).
  apply bind_ok_inv in H as (? & _ & H & ->).
  destruct (create_transportation_keeps order_id) as [H3 _].
  specialize (H3 (after (create_payment order_id)
                    (after (create_items_and_update_stock order_id)
                       (after (getitem first "order_id") w)))).
  unfold same_session in *.
  destruct (show_created_summary order_id _ H) as [items Hlast].
  exists order_id, items. rewrite Hlast. f_equal. f_equal; congruence.
Qed.

(** The summary that closes a successful run lists what the session holds. *)
Lemma commit_summary another w :
  succeeded (after (create_complete_order another) w) = true →
  ∃ order_id items,
    last (ui (after (create_complete_order another) w))
    = Some (UiSummary order_id items (payment_listed (session w))
                      (transport_listed (session w))).
Proof.
  unfold create_complete_order.
  rewrite after_try_except, outcome_bind, after_bind, order_data_pure.
  destruct (outcome order_data w) as [data|e];
    [|unfold succeeded; run; by rewrite last_snoc].
  rewrite outcome_bind, after_bind.
  pose proof (execute_query_same_session "orders" OpInsert (with_data data) w) as Hs.
  unfold same_session in Hs.
  destruct (execute_query_returns "orders" OpInsert (with_data data) w) as [rs ->].
  set (w1 := after (execute_query "orders" OpInsert (with_data data)) w) in *.
  destruct rs as [|first rest].
  { unfold succeeded. run. by rewrite last_snoc. }
  rewrite outcome_bind, after_bind.
  pose proof (write_order_summary first w1) as Hsum.
  set (w2 := after (write_order first) w1) in *.
  destruct (outcome (write_order first) w1) as [[]|e];
    [|unfold succeeded; run; by rewrite last_snoc].
  destruct (Hsum eq_refl) as (order_id & items & Hlast). rewrite Hs in Hlast.
  intros _. exists order_id, items. by destruct another.
Qed.

(** The rows of the tables [ts] after the run, when the three steps that
    insert or update leave them alone. *)
Lemma commit_tables_kept ts another w :
  "orders" ∉ ts →
  (∀ order_id, hoare (tables_kept ts w) (create_items_and_update_stock order_id)
                     (tables_kept ts w)) →
  (∀ order_id, hoare (tables_kept ts w) (create_payment order_id) (tables_kept ts w)) →
  (∀ order_id, hoare (tables_kept ts w) (create_transportation order_id)
                     (tables_kept ts w)) →
  ∀ t, t ∈ ts →
    table_rows (db (after (create_complete_order another) w)) t = table_rows (db w) t.
Proof.
  intros Horders Hitems Hpay Htrans.
  set (P0 := tables_kept ts w).
  set (I := fun w' : world => ∀ t, t ∈ ts → table_rows (db w') t = table_rows (db w) t).
  assert (HP0I : ∀ w', P0 w' → I w') by (by intros w' [_ H]).
  assert (Hk0 : ∀ A (m : M A), preserves (tables_kept ts) m → hoare P0 m P0).
  { intros A m Hm. apply (preserves_hoare (tables_kept ts)); [done|].
    intros w1 w2 Hk H. unfold P0 in *. by etrans. }
  assert (H : hoare P0 (create_complete_order another) I);
    [|by apply H].
  unfold create_complete_order.
  apply (hoare_try_except P0 I I); [| |done].
  2: { intros e w' H. exact H. }
  apply (hoare_bind P0 P0 I); [apply Hk0; keep| |done]. intros data.
  apply (hoare_bind P0 P0 I);
    [apply Hk0, execute_query_tables_kept; by right| |done].
  intros [|first rest]; [by intros w' [_ H]|].
  apply (hoare_bind P0 P0 I); [|intros _|done].
  2: { destruct another; by intros w' [_ H]. }
  unfold write_order.
  apply (hoare_bind P0 P0 P0); [apply Hk0; keep| |done]. intros order_id.
  apply (hoare_bind P0 P0 P0); [apply Hitems| |done]. intros _.
  apply (hoare_bind P0 P0 P0); [apply Hpay| |done]. intros _.
  apply (hoare_bind P0 P0 P0); [apply Htrans| |done]. intros _.
  apply Hk0. keep.
Qed.

Lemma preserves_tables_hoare {A} ts w (m : M A) :
  preserves (tables_kept ts) m → hoare (tables_kept ts w) m (tables_kept ts w).
Proof.
  intros Hm. apply (preserves_hoare (tables_kept ts)); [done|].
  intros w1 w2 Hk H. by etrans.
Qed.

Lemma create_items_and_update_stock_tables_kept ts order_id :
  "order_items" ∉ ts → "products" ∉ ts →
  preserves (tables_kept ts) (create_items_and_update_stock order_id).
Proof.
  intros H1 H2. unfold create_items_and_update_stock.
  repeat first [ apply execute_query_tables_kept; by right | preserve_step ].
Qed.

Lemma create_payment_tables_kept ts order_id :
  "payments" ∉ ts → preserves (tables_kept ts) (create_payment order_id).
Proof.
  intros H1. unfold create_payment.
  repeat first [ apply execute_query_tables_kept; by right | preserve_step ].
Qed.

Lemma create_transportation_tables_kept ts order_id :
  "transportation" ∉ ts → preserves (tables_kept ts) (create_transportation order_id).
Proof.
  intros H1. unfold create_transportation.
  repeat first [ apply execute_query_tables_kept; by right | preserve_step ].
Qed.

Ltac not_listed := apply (bool_decide_unpack _); by vm_compute.

(** X13: a payment form submitted with an amount that is not above 0 stores
    no payment: the [payments] table is as it was after the run. The
    summary of a successful run lists the payment all the same. *)
Theorem zero_payment_is_listed_not_stored another w pay_date pay_amount pay_mode :
  payment_info (session w) = Some (PaymentRecorded pay_date pay_amount pay_mode) →
  PrimFloat.ltb 0 pay_amount = false →
  table_rows (db (after (create_complete_order another) w)) "payments"
    = table_rows (db w) "payments" ∧
  (succeeded (after (create_complete_order another) w) = true →
   ∃ order_id items transport,
     last (ui (after (create_complete_order another) w))
     = Some (UiSummary order_id items (Some pay_amount) transport)).
Proof.
  intros Hpay Hamount. split.
  - apply (commit_tables_kept ["payments"]); [not_listed| | | |apply list_elem_of_here].
    + intros oid. apply preserves_tables_hoare,
        create_items_and_update_stock_tables_kept; not_listed.
    + intros oid w' [Hs Ht]. unfold create_payment, attr.
      rewrite after_bind, outcome_get_session, after_get_session, Hs, Hpay. step.
      rewrite Hamount. step. done.
    + intros oid. apply preserves_tables_hoare,
        create_transportation_tables_kept; not_listed.
  - intros (order_id & items & Hlast)%commit_summary.
    exists order_id, items, (transport_listed (session w)).
    rewrite Hlast. unfold payment_listed. by rewrite Hpay.
Qed.

Lemma zero_payment_is_listed_not_stored_witness :
  table_rows
    (db (after (create_complete_order false)
           (World (shop 10) []
              (Session (Some staff) (Some 5)
                 (Some (OrderInfo 1 1 "C1 (ID 1)" "E1 (ID 1)" "2025-01-15" "Pending"))
                 (Some [CartItem 1 "P1" 3 50 150])
                 (Some (PaymentRecorded "2025-01-15" 0 "Cash"))
                 (Some TransportSkipped)) []))) "payments"
  = table_rows (shop 10) "payments".
Proof.
  apply (zero_payment_is_listed_not_stored false
           (World (shop 10) []
              (Session (Some staff) (Some 5)
                 (Some (OrderInfo 1 1 "C1 (ID 1)" "E1 (ID 1)" "2025-01-15" "Pending"))
                 (Some [CartItem 1 "P1" 3 50 150])
                 (Some (PaymentRecorded "2025-01-15" 0 "Cash"))
                 (Some TransportSkipped)) [])
           "2025-01-15" 0 "Cash").
  - reflexivity.
  - reflexivity.
Defined.

(** X14: a transportation form submitted without a vehicle number or
    without a driver name stores no transportation: the [transportation]
    table is as it was after the run. The summary of a successful run lists
    the transportation all the same. *)
Theorem blank_transport_is_listed_not_stored another w
    vehicle driver mode departure arrival t_status :
  transport_info (session w)
    = Some (TransportRecorded vehicle driver mode departure arrival t_status) →
  nonempty vehicle && nonempty driver = false →
  table_rows (db (after (create_complete_order another) w)) "transportation"
    = table_rows (db w) "transportation" ∧
  (succeeded (after (create_complete_order another) w) = true →
   ∃ order_id items payment,
     last (ui (after (create_complete_order another) w))
     = Some (UiSummary order_id items payment (Some mode))).
Proof.
  intros Htr Hblank. split.
  - apply (commit_tables_kept ["transportation"]);
      [not_listed| | | |apply list_elem_of_here].
    + intros oid. apply preserves_tables_hoare,
        create_items_and_update_stock_tables_kept; not_listed.
    + intros oid. apply preserves_tables_hoare,
        create_payment_tables_kept; not_listed.
    + intros oid w' [Hs Ht]. unfold create_transportation, attr.
      rewrite after_bind, outcome_get_session, after_get_session, Hs, Htr. step.
      rewrite Hblank. step. done.
  - intros (order_id & items & Hlast)%commit_summary.
    exists order_id, items, (payment_listed (session w)).
    rewrite Hlast. unfold transport_listed. by rewrite Htr.
Qed.

Lemma blank_transport_is_listed_not_stored_witness :
  table_rows
    (db (after (create_complete_order false)
           (World (shop 10) []
              (Session (Some staff) (Some 5)
                 (Some (OrderInfo 1 1 "C1 (ID 1)" "E1 (ID 1)" "2025-01-15" "Pending"))
                 (Some [CartItem 1 "P1" 3 50 150])
                 (Some PaymentSkipped)
                 (Some (TransportRecorded "MH12AB1234" "" "Truck" "2025-01-15"
                                          "2025-01-16" "In Transit"))) [])))
    "transportation"
  = table_rows (shop 10) "transportation".
Proof.
  apply (blank_transport_is_listed_not_stored false
           (World (shop 10) []
              (Session (Some staff) (Some 5)
                 (Some (OrderInfo 1 1 "C1 (ID 1)" "E1 (ID 1)" "2025-01-15" "Pending"))
                 (Some [CartItem 1 "P1" 3 50 150])
                 (Some PaymentSkipped)
                 (Some (TransportRecorded "MH12AB1234" "" "Truck" "2025-01-15"
                                          "2025-01-16" "In Transit"))) [])
           "MH12AB1234" "" "Truck" "2025-01-15" "2025-01-16" "In Transit").
  - reflexivity.
  - reflexivity.
Defined.

(** ** A commit in which nothing fails *)




















(** ** What creating an order leaves alone *)

(** X16: creating an order touches five tables at most. Every other table
    of the store (customers, employees, users, ...) has the same rows after
    the run, whether it succeeds or fails. *)
Theorem commit_touches_five_tables_only another w t :
  t ∉ ["orders"; "order_items"; "products"; "payments"; "transportation"] →
  table_rows (db (after (create_complete_order another) w)) t = table_rows (db w) t.
Proof.
  intros Hnot.
  assert (Hother : ∀ x, x ∈ ["orders"; "order_items"; "products"; "payments";
                              "transportation"] → x ∉ [t]).
  { intros x Hx ->%list_elem_of_singleton. done. }
  apply (commit_tables_kept [t]); [| | | |apply list_elem_of_here].
  - apply Hother. not_listed.
  - intros oid. apply preserves_tables_hoare,
      create_items_and_update_stock_tables_kept; apply Hother; not_listed.
  - intros oid. apply preserves_tables_hoare, create_payment_tables_kept.
    apply Hother. not_listed.
  - intros oid. apply preserves_tables_hoare, create_transportation_tables_kept.
    apply Hother. not_listed.
Qed.

Lemma commit_touches_five_tables_only_witness :
  table_rows (db (after (create_complete_order false) (scenario 10 [] "Pending")))
             "customers"
  = table_rows (shop 10) "customers".
Proof.
  apply (commit_touches_five_tables_only false (scenario 10 [] "Pending") "customers").
  intros H. apply (bool_decide_pack _) in H. by vm_compute in H.
Defined.

(** ** Bulk import: what is stored *)



